(** * Resiliations dashboard: normalisation and aggregation pipeline

    Shallow embedding of [dashboard_resiliations_interactif_ok.py].  The
    script loads one sheet of cancellation records, resolves the entry
    month of every row, filters on the selected products and hands five
    summary tables to the chart widgets.

    Conventions of the embedding:
    - a Python [str] is the list of its code points ([Py.str]); product,
      class and division cells are text, which the script only compares
      and sorts: they are Rocq strings (UTF-8 bytes, whose byte order is the
      code point order);
    - the cells of a month column are empty, whole numbers or text; years
      and unit counts are whole numbers, the unit counts being held as
      int64, so that a sum wraps around at 2^63;
    - what pandas itself computes from text and in floating point is an
      interface ([Pandas]): the reading of a text as a number by
      [pd.to_numeric], and the float64 mean of a group, given as the
      rational it denotes.  The properties below hold for every
      implementation of the interface that obeys its two laws;
    - a pandas Series is an association list sorted on its index, a pivoted
      frame is a list of column labels with one row of optional cells per
      index value;
    - the script itself is a computation in a small monad [M] that records
      what has been handed to the page so far and may stop on a Python
      exception;
    - the chart and widget calls ([px.imshow], [px.bar], [st.plotly_chart])
      are collaborators: an [event] records the table they receive. *)

From Stdlib Require Import QArith.
From stdpp Require Import base list sets strings sorting pretty numbers.

Open Scope Z_scope.

#[local] Set Warnings "-clear-no-such-hyp".

(** ** Python primitives used by the script *)

Module Py.

(** A [str] as the sequence of its code points. *)
Definition str := list N.

Definition of_string (s : string) : str :=
  Ascii.N_of_ascii <$> String.list_ascii_of_string s.

(** [str(n)] for an integer. *)
Definition str_of_int (z : Z) : str := of_string (pretty z).

(** [c.isspace()]: the code points Python's [strip()] removes. *)
Definition isspace (c : N) : bool :=
  ((9 <=? c) && (c <=? 13) || (28 <=? c) && (c <=? 32)
   || (c =? 133) || (c =? 160) || (c =? 5760)
   || (8192 <=? c) && (c <=? 8202)
   || (c =? 8232) || (c =? 8233) || (c =? 8239) || (c =? 8287)
   || (c =? 12288))%N.

(** The decimal digits of Unicode 14 (general category Nd, the characters
    [\d] matches and [int] reads) come in 66 runs of ten consecutive code
    points, 0 to 9; [digit_zeros] lists the code point of the zero of each
    run, ASCII first. *)
Definition digit_zeros : list N :=
  [48; 1632; 1776; 1984; 2406; 2534; 2662; 2790; 2918; 3046; 3174; 3302;
    3430; 3558; 3664; 3792; 3872; 4160; 4240; 6112; 6160; 6470; 6608; 6784;
    6800; 6992; 7088; 7232; 7248; 42528; 43216; 43264; 43472; 43504; 43600;
    44016; 65296; 66720; 68912; 69734; 69872; 69942; 70096; 70384; 70736;
    70864; 71248; 71360; 71472; 71904; 72016; 72784; 73040; 73120; 92768;
    92864; 93008; 120782; 120792; 120802; 120812; 120822; 123200; 123632;
    125264; 130032 ]%N.

(** The value of a decimal digit, [None] for any other code point. *)
Fixpoint digit_of (zeros : list N) (c : N) : option Z :=
  match zeros with
  | [] => None
  | z :: zeros' =>
      if ((z <=? c) && (c <=? z + 9))%N then Some (Z.of_N (c - z))
      else digit_of zeros' c
  end.

(** [\d] of the [re] module on a [str] pattern. *)
Definition isdigit (c : N) : bool :=
  match digit_of digit_zeros c with Some _ => true | None => false end.

(** [int(c)] for a digit [c]. *)
Definition digit_val (c : N) : Z := default 0 (digit_of digit_zeros c).

(** [c.lower()] for a code point that lowers to one code point.  In the
    Latin-1 range A-Z and the accented capitals U+00C0..U+00DE (the
    multiplication sign U+00D7 excepted) move up by 32.  Beyond it, four
    code points lower into Latin-1: U+0178 to U+00FF, U+1E9E to U+00DF,
    the Kelvin sign U+212A to k and the Angstrom sign U+212B to U+00E5.
    Every other letter beyond Latin-1 lowers to a code point beyond
    Latin-1, which no key of the abbreviation table holds, and is left
    alone here. *)
Definition lower_char (c : N) : N :=
  (if (65 <=? c) && (c <=? 90)
      || (192 <=? c) && (c <=? 222) && negb (c =? 215)
   then c + 32
   else if c =? 376 then 255
   else if c =? 7838 then 223
   else if c =? 8490 then 107
   else if c =? 8491 then 229
   else c)%N.

(** [c.lower()] as a [str]: U+0130, the capital I with a dot above, lowers
    to two code points, i and the combining dot above U+0307. *)
Definition lower_chars (c : N) : str :=
  if (c =? 304)%N then [105; 775]%N else [lower_char c].

(** [s.lower()] *)
Definition lower (s : str) : str := s ≫= lower_chars.

Fixpoint lstrip (s : str) : str :=
  match s with
  | c :: s' => if isspace c then lstrip s' else s
  | [] => []
  end.

Definition rstrip (s : str) : str := reverse (lstrip (reverse s)).

Definition strip (s : str) : str := rstrip (lstrip s).

(** [l[i]] on a list: a negative index counts from the end, an index
    outside [-len, len) raises [IndexError] ([None] here). *)
Definition getitem {A} (l : list A) (i : Z) : option A :=
  let n := Z.of_nat (length l) in
  if (0 <=? i) && (i <? n) then l !! Z.to_nat i
  else if (- n <=? i) && (i <? 0) then l !! Z.to_nat (n + i)
  else None.

(** [f"{z:02d}"]: at least two characters, zero padded, the sign
    counting for one. *)
Definition format_02d (z : Z) : string :=
  if (0 <=? z) && (z <? 10) then "0" +:+ pretty z else pretty z.

End Py.

(** ** Month labels and the Month Resolver *)

Definition LABELS_MOIS_FR : list Py.str :=
  [ Py.of_string "Jan"; [70; 233; 118]%N; Py.of_string "Mar";
    Py.of_string "Avr"; Py.of_string "Mai"; Py.of_string "Juin";
    Py.of_string "Juil"; [65; 111; 251]%N; Py.of_string "Sept";
    Py.of_string "Oct"; Py.of_string "Nov"; [68; 233; 99]%N ].

Definition LABELS_MOIS_ASCII : list string :=
  [ "Jan"; "Fev"; "Mars"; "Avr"; "Mai"; "Juin"; "Juil"; "Aout"; "Sept";
    "Oct"; "Nov"; "Dec" ]%string.

(** A spreadsheet cell: empty, a number, or text. *)
Inductive cell :=
  | CNull
  | CInt (z : Z)
  | CStr (s : Py.str).

(** [str(val)] *)
Definition str_of_cell (c : cell) : Py.str :=
  match c with
  | CNull => Py.of_string "nan"
  | CInt z => Py.str_of_int z
  | CStr s => s
  end.

(** The literal dictionary of [month_from_long]; U+00E9 is 233 and U+00FB
    is 251. *)
Definition mapping : list (Py.str * Z) :=
  [ (Py.of_string "jan", 1); ([102; 233; 118]%N, 2); (Py.of_string "fev", 2);
    (Py.of_string "mar", 3); (Py.of_string "avr", 4); (Py.of_string "mai", 5);
    (Py.of_string "jun", 6); (Py.of_string "jui", 7); ([97; 111; 251]%N, 8);
    (Py.of_string "aou", 8); (Py.of_string "sep", 9); (Py.of_string "oct", 10);
    (Py.of_string "nov", 11); ([100; 233; 99]%N, 12); (Py.of_string "dec", 12) ].

(** [d.get(k)] on a dictionary literal with distinct keys. *)
Fixpoint dict_get {K V} `{EqDecision K} (d : list (K * V)) (k : K) : option V :=
  match d with
  | [] => None
  | (k', v) :: d' => if decide (k = k') then Some v else dict_get d' k
  end.

(** [re.match(r"^(\d{1,2})", s)] followed by [int(m.group(1))]: one or two
    leading digits, two when both are there. *)
Definition leading_digits (s : Py.str) : option Z :=
  match s with
  | c1 :: c2 :: _ =>
      if Py.isdigit c1 then
        if Py.isdigit c2 then Some (10 * Py.digit_val c1 + Py.digit_val c2)
        else Some (Py.digit_val c1)
      else None
  | [c1] => if Py.isdigit c1 then Some (Py.digit_val c1) else None
  | [] => None
  end.

Definition month_from_long (val : cell) : option Z :=
  match val with
  | CNull => None
  | _ =>
      let s := Py.strip (str_of_cell val) in
      match leading_digits s with
      | Some n => Some n
      | None =>
          let base := take 3 (Py.lower s) in
          dict_get mapping base
      end
  end.

(** ** The sheet and its normalisation (script lines 51-66) *)

(** One record of the sheet.  The fields are the columns the script reads,
    under their names once [str(c).strip()] has been applied to the
    headers; a field whose column the sheet does not have is never read.
    The year is a whole number or missing, the product, the class and the
    division are text or missing, the unit count is an int64. *)
Record Row := {
  Mois_saisie : cell;
  Mois_saisie_long : cell;
  Annee_saisie : option Z;
  PRODUIT : option string;
  CLASSE_CLIENT : option string;
  DV : option string;
  un : Z
}.

(** The loaded sheet: its headers as read and its records in order. *)
Record DataFrame := {
  columns : list Py.str;
  rows : list Row
}.

(** The Python exceptions the script can stop on.  [Unmodelled] is not one
    of them: it marks a sheet this embedding does not follow any further (a
    month that is a number with a fractional part, or a sheet that brings a
    column "mois_num" of its own and no month column). *)
Inductive exn :=
  | KeyError (column : string)
  | IndexError
  | ValueError
  | OverflowError
  | Unmodelled.

Definition res (A : Type) : Type := exn + A.

#[export] Instance res_ret : MRet res := λ _ x, inr x.
#[export] Instance res_bind : MBind res := λ _ _ f m,
  match m with inl e => inl e | inr x => f x end.

Fixpoint mapM {A B} (f : A → res B) (l : list A) : res (list B) :=
  match l with
  | [] => inr []
  | x :: l' => y ← f x; ys ← mapM f l'; mret (y :: ys)
  end.

(** [name in df.columns] *)
Definition has_column (cols : list Py.str) (name : string) : bool :=
  bool_decide (Py.of_string name ∈ cols).

(** Line 52: every header is stripped. *)
Definition strip_columns (cols : list Py.str) : list Py.str := Py.strip <$> cols.

(** Lines 53-54: a sheet without the unit column gets [un = 1] on every
    record. *)
Definition set_un (v : Z) (r : Row) : Row :=
  {| Mois_saisie := Mois_saisie r; Mois_saisie_long := Mois_saisie_long r;
     Annee_saisie := Annee_saisie r; PRODUIT := PRODUIT r;
     CLASSE_CLIENT := CLASSE_CLIENT r; DV := DV r; un := v |}.

Definition default_un (cols : list Py.str) (rs : list Row) : list Row :=
  if has_column cols "un" then rs else set_un 1 <$> rs.

(** A value of a numeric column as the script sees it: not a number, a
    whole number, a number with a fractional part, or an infinity. *)
Inductive num :=
  | NaN
  | Whole (z : Z)
  | Fractional
  | Infinite.

(** The month a record of the frame holds: a whole number, [None] for
    [NaN].  No frame is built from a sheet with one of the two other
    values (see [num_lbl]). *)
Definition month_of (n : num) : option Z :=
  match n with Whole z => Some z | _ => None end.

Definition num_of_month (m : option Z) : num :=
  match m with Some z => Whole z | None => NaN end.

(** The sum of a list of integers, without bound. *)
Definition total_Z (l : list Z) : Z := foldr Z.add 0 l.

(** The first letters of the keys of [mapping]: j f m a s o n d. *)
Definition first_letters : list N := [106; 102; 109; 97; 115; 111; 110; 100]%N.

(** The two primitives of pandas whose results the script takes as they
    come.
    - [text_to_numeric s] is what [pd.to_numeric(errors="coerce")] makes of
      a text cell [s].  Of its reading of numbers only this is used: a text
      that begins, blanks aside, with one of the letters j f m a s o n d, in
      either case, is not the text of a number.
    - [f64_mean l] is [.mean()] of a group of int64 values, a float64,
      given as the rational it denotes.  Of its rounding only this is used:
      on values that are not negative and add up to at most 2^53 every
      float64 operation is exact, so a whole mean comes out as it is. *)
Class Pandas := {
  text_to_numeric : Py.str → num;
  text_to_numeric_letter (s : Py.str) (c : N) (t : Py.str) :
    Py.strip s = c :: t → Py.lower_char c ∈ first_letters →
    text_to_numeric s = NaN;
  f64_mean : list Z → Q;
  f64_mean_whole (l : list Z) (k : Z) :
    l ≠ [] → Forall (λ x, 0 ≤ x) l → total_Z l ≤ 2 ^ 53 →
    total_Z l = Z.of_nat (length l) * k →
    (f64_mean l == inject_Z k)%Q
}.

(** [pd.to_numeric(col, errors="coerce")] on one cell: an empty cell is
    [NaN], a number stays, a text is read by pandas. *)
Definition to_numeric {P : Pandas} (c : cell) : num :=
  match c with
  | CNull => NaN
  | CInt z => Whole z
  | CStr s => text_to_numeric s
  end.

(** Lines 57-60.  When the sheet has neither month column no [mois_num] is
    created: line 63 then stops on [KeyError], unless the sheet has a
    column of that name itself. *)
Definition mois_num_column {P : Pandas} (cols : list Py.str) (rs : list Row) :
    res (list num) :=
  if has_column cols "Mois saisie" then
    inr (to_numeric ∘ Mois_saisie <$> rs)
  else if has_column cols "Mois saisie long" then
    inr (num_of_month ∘ month_from_long ∘ Mois_saisie_long <$> rs)
  else if has_column cols "mois_num" then inl Unmodelled
  else inl (KeyError "mois_num").

(** The lambda of line 63 on a resolved month. *)
Definition mois_lbl (i : option Z) : res string :=
  match i with
  | Some i =>
      match Py.getitem LABELS_MOIS_ASCII (i - 1) with
      | Some lbl => inr (Py.format_02d i +:+ " - " +:+ lbl)
      | None => inl IndexError
      end
  | None => inr ""
  end.

(** The lambda of line 63 on a value of the column: [int(i)] stops on an
    infinity. *)
Definition num_lbl (n : num) : res string :=
  match n with
  | NaN => mois_lbl None
  | Whole z => mois_lbl (Some z)
  | Infinite => inl OverflowError
  | Fractional => inl Unmodelled
  end.

(** A record with its derived columns. *)
Record Rec := {
  row : Row;
  mois_num : option Z;
  mois_lbl_full : string
}.

(** The frame the rest of the script works on. *)
Record Frame := {
  cols : list Py.str;
  recs : list Rec
}.

Definition make_recs (rs : list Row) (ms : list (option Z)) (ls : list string) : list Rec :=
  (λ x, {| row := x.1.1; mois_num := x.1.2; mois_lbl_full := x.2 |})
    <$> zip (zip rs ms) ls.

(** Lines 52-66 together: the frame is there once the months are labelled
    (line 63) and the year column has been read (line 66, [KeyError] on a
    sheet without it). *)
Definition normalise {P : Pandas} (df : DataFrame) : res Frame :=
  let cs := strip_columns (columns df) in
  let rs := default_un cs (rows df) in
  ns ← mois_num_column cs rs;
  ls ← mapM num_lbl ns;
  if has_column cs "Annee saisie"
  then mret {| cols := cs; recs := make_recs rs (month_of <$> ns) ls |}
  else inl (KeyError "Annee saisie").

(** ** Dimension sets and selection (lines 66-78) *)

Definition YEARS (df : Frame) : list Z :=
  merge_sort Z.le (remove_dups (omap (Annee_saisie ∘ row) (recs df))).

(** The default of the averaging-years widget. *)
Definition default_mean_years (years : list Z) : list Z :=
  filter (λ y, y ∈ years) [2005; 2006].

Record Selection := {
  sel_prods : list string;
  sel_year_bar : Z;
  sel_year_line : Z;
  sel_mean_years : list Z
}.

(** [astype(str)] on the product column: an empty cell reads "nan". *)
Definition astype_str (p : option string) : string := default "nan"%string p.

(** Line 78. *)
Definition df_filt (df : Frame) (prods : list string) : res Frame :=
  match prods with
  | [] => inr df
  | _ =>
      if has_column (cols df) "PRODUIT" then
        inr {| cols := cols df;
               recs := filter (λ r, astype_str (PRODUIT (row r)) ∈ prods) (recs df) |}
      else inl (KeyError "PRODUIT")
  end.

(** ** pandas primitives: groupby, unstack, reindex *)

(** An int64: the representative in [-2^63, 2^63) of an integer modulo
    2^64. *)
Definition wrap64 (z : Z) : Z := (z + 2 ^ 63) mod 2 ^ 64 - 2 ^ 63.

(** [.sum()] of int64 values: the sum wraps around. *)
Definition sum_Z (l : list Z) : Z := wrap64 (total_Z l).

(** The exact arithmetic mean of a list of integers that is not empty. *)
Definition mean_Z (l : list Z) : Q :=
  (inject_Z (total_Z l) / inject_Z (Z.of_nat (length l)))%Q.

(** Order on a pair of grouping keys: the first key, then the second. *)
Definition lex_le {A B} (leA : relation A) (leB : relation B) : relation (A * B) :=
  λ a b, (leA a.1 b.1 ∧ a.1 ≠ b.1) ∨ (a.1 = b.1 ∧ leB a.2 b.2).

#[export] Instance lex_le_dec {A B} `{EqDecision A}
    (leA : relation A) (leB : relation B)
    `{!RelDecision leA, !RelDecision leB} : RelDecision (lex_le leA leB).
Proof. intros a b. unfold lex_le. apply _. Defined.

Definition str_le : relation string := λ s t, String.leb s t = true.

#[export] Instance str_le_dec : RelDecision str_le.
Proof. intros s t. unfold str_le. apply _. Defined.

(** The group keys of a [groupby]: the distinct keys that occur, sorted;
    a record whose key is [NaN] belongs to no group. *)
Definition group_keys {K} `{EqDecision K} (le : relation K) `{!RelDecision le}
    {A} (key : A → option K) (l : list A) : list K :=
  merge_sort le (remove_dups (omap key l)).

(** [df.groupby(key)["un"].sum()] *)
Definition groupby_sum {K} `{EqDecision K} (le : relation K) `{!RelDecision le}
    (key : Rec → option K) (rs : list Rec) : list (K * Z) :=
  (λ k, (k, sum_Z (un ∘ row <$> filter (λ r, key r = Some k) rs)))
    <$> group_keys le key rs.

(** [s.groupby("mois_num").mean()] on a Series indexed by
    (year, month). *)
Definition groupby_month_mean {P : Pandas} (s : list ((Z * Z) * Z)) : list (Z * Q) :=
  (λ m, (m, f64_mean (snd <$> filter (λ e, e.1.2 = m) s)))
    <$> group_keys Z.le (λ e : (Z * Z) * Z, Some e.1.2) s.

(** [s.reindex(index, fill_value=fill)] on a Series. *)
Definition reindex {V} (s : list (Z * V)) (index : list Z) (fill : V) : list (Z * V) :=
  (λ m, (m, default fill (dict_get s m))) <$> index.

(** [range(1, 13)] *)
Definition range_1_13 : list Z := seqZ 1 12.

(** A frame of optional numbers: column labels, and per index value one
    cell per column.  A cell holds an int64 sum; pandas keeps the table in
    float64 as soon as one cell is empty, which holds a sum up to 2^53 in
    absolute value as it is. *)
Record Pivot := {
  pivot_columns : list Z;
  pivot_rows : list (Z * list (option Z))
}.

(** [s.unstack("Annee saisie")] on a Series indexed by (month, year). *)
Definition unstack (s : list ((Z * Z) * Z)) : Pivot :=
  let ys := group_keys Z.le (λ e : (Z * Z) * Z, Some e.1.2) s in
  let ms := group_keys Z.le (λ e : (Z * Z) * Z, Some e.1.1) s in
  {| pivot_columns := ys;
     pivot_rows := (λ m, (m, (λ y, dict_get s (m, y)) <$> ys)) <$> ms |}.

(** [frame.reindex(index)]: a missing row is all [NaN]. *)
Definition reindex_rows (p : Pivot) (index : list Z) : Pivot :=
  {| pivot_columns := pivot_columns p;
     pivot_rows :=
       (λ m, (m, default ((λ _, None) <$> pivot_columns p)
                         (dict_get (pivot_rows p) m))) <$> index |}.

(** [s.unique()]: first occurrences, in order. *)
Fixpoint unique {A} `{EqDecision A} (l : list A) : list A :=
  match l with
  | [] => []
  | x :: l' => x :: filter (λ y, y ≠ x) (unique l')
  end.

(** ** The five aggregations *)

Definition key_mois_annee (r : Rec) : option (Z * Z) :=
  m ← mois_num r; y ← Annee_saisie (row r); Some (m, y).

Definition key_annee_mois (r : Rec) : option (Z * Z) :=
  y ← Annee_saisie (row r); m ← mois_num r; Some (y, m).

Definition key_classe_produit (r : Rec) : option (string * string) :=
  c ← CLASSE_CLIENT (row r); p ← PRODUIT (row r); Some (c, p).

Definition key_dv_produit (r : Rec) : option (string * string) :=
  d ← DV (row r); p ← PRODUIT (row r); Some (d, p).

(** Line 82. *)
Definition pivot (f : Frame) : Pivot :=
  reindex_rows
    (unstack (groupby_sum (lex_le Z.le Z.le) key_mois_annee (recs f)))
    range_1_13.

(** Lines 90-92: the gate and the table, its groups in the order of the
    class, then of the product, both being text. *)
Definition classe_produit (f : Frame) : option (list ((string * string) * Z)) :=
  if has_column (cols f) "CLASSE_CLIENT" && has_column (cols f) "PRODUIT"
  then Some (groupby_sum (lex_le str_le str_le) key_classe_produit (recs f))
  else None.

(** Lines 99-100: the series of one year. *)
Definition serie_annee (f : Frame) (year : Z) : list (Z * Z) :=
  reindex
    (groupby_sum Z.le mois_num
       (filter (λ r, Annee_saisie (row r) = Some year) (recs f)))
    range_1_13 0.

Definition serie_bar (f : Frame) (s : Selection) := serie_annee f (sel_year_bar s).
Definition serie_line (f : Frame) (s : Selection) := serie_annee f (sel_year_line s).

(** Lines 101-103. *)
Definition mean {P : Pandas} (f : Frame) (years : list Z) : list (Z * Q) :=
  reindex
    (groupby_month_mean
       (groupby_sum (lex_le Z.le Z.le) key_annee_mois
          (filter (λ r, Annee_saisie (row r) ∈ (Some <$> years)) (recs f))))
    range_1_13 0%Q.

(** Lines 113-115: likewise for the division. *)
Definition dv_produit (f : Frame) : option (list ((string * string) * Z)) :=
  if has_column (cols f) "DV" && has_column (cols f) "PRODUIT"
  then Some (groupby_sum (lex_le str_le str_le) key_dv_produit (recs f))
  else None.

(** Lines 122-127. *)
Definition annexe : list Z := [-133; 693; 613].

(** [min(l)] and [max(l)]: [ValueError] on an empty list. *)
Definition py_min (l : list Z) : res Z :=
  match l with [] => inl ValueError | x :: l' => inr (foldr Z.min x l') end.
Definition py_max (l : list Z) : res Z :=
  match l with [] => inl ValueError | x :: l' => inr (foldr Z.max x l') end.

(** ** The script as a computation *)

(** What a widget call hands to the page. *)
Inductive event :=
  | Heatmap (p : Pivot)
  | ClasseProduit (g : list ((string * string) * Z))
  | Subheader3 (bar line lo hi : Z)
  | Comparison (x : list string) (bar line : list (Z * Z)) (moyenne : list (Z * Q))
  | DvProduit (g : list ((string * string) * Z))
  | Annexe (valeurs : list Z).

(** A run threads the page built so far and ends in a value or in the
    exception that stopped it; what was already on the page stays. *)
Definition M (A : Type) : Type := list event → res A * list event.

#[export] Instance M_ret : MRet M := λ _ x page, (inr x, page).
#[export] Instance M_bind : MBind M := λ _ _ f m page,
  match m page with
  | (inl e, page') => (inl e, page')
  | (inr x, page') => f x page'
  end.

Definition emit (e : event) : M unit := λ page, (inr (), page ++ [e]).

Definition lift {A} (r : res A) : M A := λ page, (r, page).

Definition when_some {A} (o : option A) (f : A → M unit) : M unit :=
  match o with Some x => f x | None => mret () end.

(** Lines 90-95: the Class x Product chart behind its gate. *)
Definition component2 (ff : Frame) : M unit :=
  when_some (classe_produit ff) (λ g, emit (ClasseProduit g)).

(** Lines 113-118: the Division x Product chart behind its gate. *)
Definition component4 (ff : Frame) : M unit :=
  when_some (dv_produit ff) (λ g, emit (DvProduit g)).

(** Lines 51-127, the user's selection given. *)
Definition script {P : Pandas} (df : DataFrame) (s : Selection) : M unit :=
  f ← lift (normalise df);
  ff ← lift (df_filt f (sel_prods s));
  _ ← emit (Heatmap (pivot ff));
  _ ← component2 ff;
  lo ← lift (py_min (sel_mean_years s));
  hi ← lift (py_max (sel_mean_years s));
  _ ← emit (Subheader3 (sel_year_bar s) (sel_year_line s) lo hi);
  _ ← emit (Comparison (unique (mois_lbl_full <$> recs f))
              (serie_bar ff s) (serie_line ff s) (mean ff (sel_mean_years s)));
  _ ← component4 ff;
  emit (Annexe annexe).

Definition run {P : Pandas} (df : DataFrame) (s : Selection) : res unit * list event :=
  script df s [].

(** ** Quantities the statements below speak about *)

(** Total of the unit counts of a list of records. *)
Definition units (rs : list Rec) : Z := sum_Z (un ∘ row <$> rs).

(** Records of month [m] in year [y]. *)
Definition of_year_month (y m : Z) (r : Rec) : Prop :=
  Annee_saisie (row r) = Some y ∧ mois_num r = Some m.

#[export] Instance of_year_month_dec y m r : Decision (of_year_month y m r).
Proof. unfold of_year_month. apply _. Defined.

(** The sum of the unit counts of year [y] for month [m]; 0 when the year
    has no record for that month. *)
Definition year_month_sum (f : Frame) (y m : Z) : Z :=
  units (filter (of_year_month y m) (recs f)).

(** The same sum as a number, without the bound of an int64. *)
Definition year_month_total (f : Frame) (y m : Z) : Z :=
  total_Z (un ∘ row <$> filter (of_year_month y m) (recs f)).

(** The mean, over every year of the averaging set, of the year's sum for
    month [m], a year without record for [m] counting for 0. *)
Definition mean_over_selected_years (f : Frame) (years : list Z) (m : Z) : Q :=
  mean_Z ((λ y, year_month_total f y m) <$> years).

(** The flat mean of the unit counts of the records of month [m] in the
    averaging years. *)
Definition flat_mean (f : Frame) (years : list Z) (m : Z) : Q :=
  mean_Z (un ∘ row <$>
    filter (λ r, Annee_saisie (row r) ∈ (Some <$> years) ∧ mois_num r = Some m)
      (recs f)).

(** The cell of a pivoted frame at row [m] and column [y]; [None] is an
    empty cell, also when the frame has no such row or column. *)
Definition pivot_cell (p : Pivot) (m y : Z) : option Z :=
  r ← dict_get (pivot_rows p) m;
  i ← fst <$> list_find (λ c, c = y) (pivot_columns p);
  mjoin (r !! i).

(** What the page shows before the comparison chart. *)
Definition page_before_comparison (ff : Frame) : list event :=
  Heatmap (pivot ff) :: option_list (ClasseProduit <$> classe_produit ff).

(** The comparison chart and what follows it. *)
Definition page_from_comparison {P : Pandas} (f ff : Frame) (s : Selection) (lo hi : Z) : list event :=
  [ Subheader3 (sel_year_bar s) (sel_year_line s) lo hi;
    Comparison (unique (mois_lbl_full <$> recs f))
      (serie_bar ff s) (serie_line ff s) (mean ff (sel_mean_years s)) ]
  ++ option_list (DvProduit <$> dv_produit ff) ++ [Annexe annexe].

Definition is_comparison (e : event) : bool :=
  match e with Comparison _ _ _ _ => true | _ => false end.

Definition is_classe_produit (e : event) : bool :=
  match e with ClasseProduit _ => true | _ => false end.

Definition is_dv_produit (e : event) : bool :=
  match e with DvProduit _ => true | _ => false end.

(** A record that a month-keyed aggregation can use: its month is resolved
    and lies in 1..12. *)
Definition usable_month (r : Rec) : Prop :=
  match mois_num r with
  | Some m => 1 ≤ m ≤ 12
  | None => False
  end.

#[export] Instance usable_month_dec r : Decision (usable_month r).
Proof. unfold usable_month. destruct (mois_num r); apply _. Defined.

(** The frame without the records whose month is unresolved or outside
    1..12. *)
Definition drop_unusable_months (f : Frame) : Frame :=
  {| cols := cols f; recs := filter usable_month (recs f) |}.

(** ** A stand-in for pandas on sample sheets *)

(** An integer literal in ASCII: an optional sign and at least one digit. *)
Fixpoint parse_digits (acc : Z) (s : Py.str) : option Z :=
  match s with
  | [] => Some acc
  | c :: s' =>
      if ((48 <=? c) && (c <=? 57))%N
      then parse_digits (10 * acc + (Z.of_N c - 48)) s'
      else None
  end.

Definition parse_int (s : Py.str) : option Z :=
  match s with
  | [] => None
  | c :: s' =>
      if (c =? 45)%N then
        match s' with [] => None | _ => Z.opp <$> parse_digits 0 s' end
      else if (c =? 43)%N then
        match s' with [] => None | _ => parse_digits 0 s' end
      else parse_digits 0 s
  end.

(** An instance of the interface to evaluate the script on sample sheets:
    it reads the integer literals among the texts and takes the exact
    mean.  It is not pandas; both laws hold of it. *)
Definition sample_pandas : Pandas.
Proof.
  refine {| text_to_numeric :=
              λ s, num_of_month (parse_int (Py.strip s));
            f64_mean := mean_Z |}.
  - intros s c t -> Hc.
    assert (65 ≤ c ≤ 122)%N as Hr.
    { unfold first_letters, Py.lower_char in Hc.
      rewrite !elem_of_cons, elem_of_nil in Hc.
      repeat match type of Hc with
             | context [if ?b then _ else _] => destruct b
             end; lia. }
    unfold parse_int.
    rewrite (proj2 (N.eqb_neq c 45)), (proj2 (N.eqb_neq c 43)) by lia.
    cbn [parse_digits].
    replace ((48 <=? c) && (c <=? 57))%N with false; [done|].
    symmetry. apply andb_false_iff. right. apply N.leb_gt. lia.
  - intros l k Hl _ _ Hk. unfold mean_Z. rewrite Hk.
    rewrite inject_Z_mult, Qmult_comm. apply Qdiv_mult_l.
    destruct l; [done|]. simpl. unfold Qeq. simpl. lia.
Defined.

(** ** Sample sheets *)

Definition mkrow (m : cell) (y : Z) (p : string) (u : Z) : Row :=
  {| Mois_saisie := CNull; Mois_saisie_long := m; Annee_saisie := Some y;
     PRODUIT := Some p; CLASSE_CLIENT := None; DV := None; un := u |}.

Definition sheet (rs : list Row) : DataFrame :=
  {| columns :=
       Py.of_string <$> ["Mois saisie long"; "Annee saisie"; "PRODUIT"; "un"]%string;
     rows := rs |}.

Definition frame_of {P : Pandas} (df : DataFrame) : Frame :=
  match normalise df with
  | inr f => f
  | inl _ => {| cols := []; recs := [] |}
  end.

(** A sheet with the long month column: two products, three years, one
    record without month. *)
Definition sample_sheet : DataFrame :=
  sheet [ mkrow (CInt 1) 2019 "A" 1; mkrow (CInt 1) 2019 "B" 3;
          mkrow (CStr (Py.of_string "Fev")) 2020 "A" 6; mkrow CNull 2021 "A" 2 ].

Definition sample_frame : Frame := frame_of (P := sample_pandas) sample_sheet.

Definition sample_selection : Selection :=
  {| sel_prods := ["A"%string]; sel_year_bar := 2020; sel_year_line := 2019;
     sel_mean_years := [2019; 2020] |}.

Definition sample_filtered : Frame :=
  {| cols := cols sample_frame;
     recs := filter (λ r, astype_str (PRODUIT (row r)) ∈ ["A"%string])
               (recs sample_frame) |}.

(** Two products in January 2020: 5 units of A, 3 units of B. *)
Definition two_product_sheet : DataFrame :=
  sheet [mkrow (CInt 1) 2020 "A" 5; mkrow (CInt 1) 2020 "B" 3].

(** Two years that share no month: 4 units in January 2005, 1 unit in
    February 2006. *)
Definition two_year_sheet : DataFrame :=
  sheet [mkrow (CInt 1) 2005 "A" 4; mkrow (CInt 2) 2006 "A" 1].

(** A sheet with the numeric month column, holding a month name as text,
    and the long column beside it. *)
Definition numeric_sheet : DataFrame :=
  {| columns := Py.of_string <$>
       ["Mois saisie"; "Mois saisie long"; "Annee saisie"; "PRODUIT"]%string;
     rows :=
       [ {| Mois_saisie := CStr (Py.of_string "janvier");
            Mois_saisie_long := CStr (Py.of_string "janvier");
            Annee_saisie := Some 2020; PRODUIT := Some "A"%string;
            CLASSE_CLIENT := None; DV := None; un := 0 |};
         {| Mois_saisie := CInt 3;
            Mois_saisie_long := CStr (Py.of_string "mars");
            Annee_saisie := Some 2020; PRODUIT := Some "A"%string;
            CLASSE_CLIENT := None; DV := None; un := 0 |} ] |}.

(** The order on product names is total. *)
#[export] Instance str_le_total : Total str_le.
Proof. intros s t. apply String.leb_total. Defined.

(** The order on pairs of numbers is total and transitive. *)
#[export] Instance lex_Z_total : Total (lex_le Z.le Z.le).
Proof. intros [a b] [c d]. unfold lex_le. simpl. lia. Defined.

#[export] Instance lex_Z_trans : Transitive (lex_le Z.le Z.le).
Proof. intros [a b] [c d] [e g]. unfold lex_le. simpl. lia. Defined.

(** ** Dimension sets and widget defaults (lines 67, 73-75) *)

(** Line 67: the products of the sheet, none when it has no product
    column. *)
Definition PRODS (f : Frame) : list string :=
  if has_column (cols f) "PRODUIT"
  then merge_sort str_le (remove_dups (omap (PRODUIT ∘ row) (recs f)))
  else [].

(** What [st.sidebar.selectbox(label, options, index=i)] returns while the
    user has not touched it: [options[i]], nothing when there is no
    option. *)
Definition selectbox_default (options : list Z) (index : Z) : option Z :=
  if 0 <=? index then options !! Z.to_nat index else None.

(** Line 74. *)
Definition default_year_bar (years : list Z) : option Z :=
  selectbox_default years (Z.of_nat (length years) - 1).

(** Line 75. *)
Definition default_year_line (years : list Z) : option Z :=
  selectbox_default years
    (if 1 <? Z.of_nat (length years) then Z.of_nat (length years) - 2 else 0).

(** A record a grouping on [key] puts in some group of [ks]. *)
Definition keyed_in {K} `{EqDecision K} {A} (key : A → option K) (ks : list K)
    (x : A) : Prop :=
  match key x with Some k => k ∈ ks | None => False end.

#[export] Instance keyed_in_dec {K} `{EqDecision K} {A}
    (key : A → option K) (ks : list K) (x : A) : Decision (keyed_in key ks x).
Proof. unfold keyed_in. destruct (key x); apply _. Defined.


(** A sheet with the class and division columns and without unit column;
    one record has no product, one has no month. *)
Definition full_sheet : DataFrame :=
  {| columns := Py.of_string <$>
       ["Mois saisie long"; " Annee saisie"; "PRODUIT"; "CLASSE_CLIENT"; "DV "]%string;
     rows :=
       [ {| Mois_saisie := CNull; Mois_saisie_long := CStr (Py.of_string "Jan");
            Annee_saisie := Some 2005; PRODUIT := Some "A"%string;
            CLASSE_CLIENT := Some "3"%string; DV := Some "Nord"%string; un := 0 |};
         {| Mois_saisie := CNull; Mois_saisie_long := CStr (Py.of_string "janvier");
            Annee_saisie := Some 2005; PRODUIT := Some "B"%string;
            CLASSE_CLIENT := Some "3"%string; DV := Some "Sud"%string; un := 0 |};
         {| Mois_saisie := CNull; Mois_saisie_long := CInt 2;
            Annee_saisie := Some 2006; PRODUIT := None;
            CLASSE_CLIENT := Some "1"%string; DV := Some "Nord"%string; un := 0 |};
         {| Mois_saisie := CNull; Mois_saisie_long := CNull;
            Annee_saisie := Some 2007; PRODUIT := Some "A"%string;
            CLASSE_CLIENT := None; DV := Some "Sud"%string; un := 0 |} ] |}.

Definition full_frame : Frame := frame_of (P := sample_pandas) full_sheet.


(** * Properties *)

Section properties.
Context {pandas : Pandas}.

(** ** Lookup in series and groups *)

Section series.
Context {K : Type} `{EqDecision K}.

Lemma dict_get_fmap_key {V} (g : K → V) (ks : list K) (k : K) :
  dict_get ((λ k, (k, g k)) <$> ks) k
  = if decide (k ∈ ks) then Some (g k) else None.
Proof.
  induction ks as [|k' ks IH]; [done|].
  rewrite fmap_cons. cbn [dict_get].
  destruct (decide (k = k')) as [->|Hne].
  - rewrite decide_True; [done | by left].
  - rewrite IH. destruct (decide (k ∈ ks)).
    + rewrite decide_True; [done | by right].
    + rewrite decide_False; [done | by intros [?|?]%elem_of_cons].
Qed.

Lemma fst_fmap_key {V} (g : K → V) (ks : list K) :
  fst <$> ((λ k, (k, g k)) <$> ks) = ks.
Proof. rewrite <- list_fmap_compose. by rewrite <- (list_fmap_id ks) at 2. Qed.

Context (le : relation K) `{!RelDecision le}.

Lemma elem_of_group_keys {A} (key : A → option K) (l : list A) (k : K) :
  k ∈ group_keys le key l ↔ ∃ x, x ∈ l ∧ key x = Some k.
Proof.
  unfold group_keys.
  rewrite merge_sort_Permutation, elem_of_remove_dups, list_elem_of_omap.
  done.
Qed.

Lemma NoDup_group_keys {A} (key : A → option K) (l : list A) :
  NoDup (group_keys le key l).
Proof.
  unfold group_keys. rewrite merge_sort_Permutation.
  apply NoDup_remove_dups.
Qed.

Lemma groupby_sum_lookup (key : Rec → option K) (rs : list Rec) (k : K) :
  dict_get (groupby_sum le key rs) k
  = if decide (k ∈ group_keys le key rs)
    then Some (units (filter (λ r, key r = Some k) rs)) else None.
Proof. unfold groupby_sum. by rewrite dict_get_fmap_key. Qed.

Lemma groupby_sum_index (key : Rec → option K) (rs : list Rec) :
  fst <$> groupby_sum le key rs = group_keys le key rs.
Proof. unfold groupby_sum. apply fst_fmap_key. Qed.

End series.

Lemma elem_of_range_1_13 (m : Z) : m ∈ range_1_13 ↔ 1 ≤ m ≤ 12.
Proof. unfold range_1_13. rewrite elem_of_seqZ. lia. Qed.

Lemma reindex_index {V} (s : list (Z * V)) (index : list Z) (fill : V) :
  fst <$> reindex s index fill = index.
Proof. unfold reindex. apply fst_fmap_key. Qed.

Lemma reindex_lookup {V} (s : list (Z * V)) (index : list Z) (fill : V) (m : Z) :
  m ∈ index →
  dict_get (reindex s index fill) m = Some (default fill (dict_get s m)).
Proof.
  intros Hm. unfold reindex.
  rewrite (dict_get_fmap_key (λ m, default fill (dict_get s m))).
  by rewrite decide_True.
Qed.

(** ** The run of the script, case by case *)

Lemma run_unfold (df : DataFrame) (s : Selection) :
  run df s =
  match normalise df with
  | inl e => (inl e, [])
  | inr f =>
      match df_filt f (sel_prods s) with
      | inl e => (inl e, [])
      | inr ff =>
          match py_min (sel_mean_years s), py_max (sel_mean_years s) with
          | inr lo, inr hi =>
              (inr (), page_before_comparison ff ++ page_from_comparison f ff s lo hi)
          | _, _ => (inl ValueError, page_before_comparison ff)
          end
      end
  end.
Proof.
  unfold run, script, page_before_comparison, page_from_comparison.
  unfold component2, component4, mbind, M_bind, lift, emit, when_some, mret, M_ret.
  destruct (normalise df) as [e|f]; [done|].
  destruct (df_filt f (sel_prods s)) as [e|ff]; [done|].
  destruct (sel_mean_years s) as [|y ys]; simpl.
  - by destruct (classe_produit ff).
  - destruct (classe_produit ff), (dv_produit ff); simpl; done.
Qed.

Lemma elem_of_YEARS (f : Frame) (y : Z) :
  y ∈ YEARS f ↔ ∃ r, r ∈ recs f ∧ Annee_saisie (row r) = Some y.
Proof. unfold YEARS. apply (elem_of_group_keys Z.le (Annee_saisie ∘ row)). Qed.

Lemma df_filt_cols (f ff : Frame) (prods : list string) :
  df_filt f prods = inr ff → cols ff = cols f.
Proof.
  unfold df_filt. destruct prods; [by intros [= <-]|].
  destruct (has_column _ _); [by intros [= <-] | done].
Qed.

(** ** Filter Stage *)

(** C4: with an empty product selection the Filter Stage returns the full
    Dataset, so the result has as many records as the unfiltered one. *)
Theorem df_filt_empty_selection (f : Frame) :
  df_filt f [] = inr f ∧
  ∃ ff, df_filt f [] = inr ff ∧ length (recs ff) = length (recs f).
Proof. split; [done|]. by exists f. Qed.

(** A non-empty selection keeps exactly the records whose product, read as
    text, is selected. *)
Lemma df_filt_selection (f ff : Frame) (prods : list string) :
  prods ≠ [] → df_filt f prods = inr ff →
  recs ff = filter (λ r, astype_str (PRODUIT (row r)) ∈ prods) (recs f).
Proof.
  intros Hne. unfold df_filt. destruct prods as [|p ps]; [done|].
  destruct (has_column _ _); [by intros [= <-] | done].
Qed.

(** ** Feature gates *)

(** C8: without the customer-class column the Class x Product component is
    skipped (no table, no chart on the page, no exception), and likewise the
    Division x Product component without the sales-division column; with
    both of its columns a component computes its table and puts its chart
    on the page. *)
Theorem optional_components_gated (ff : Frame) (page : list event) :
  (has_column (cols ff) "CLASSE_CLIENT" = false →
     classe_produit ff = None ∧ component2 ff page = (inr (), page)) ∧
  (has_column (cols ff) "DV" = false →
     dv_produit ff = None ∧ component4 ff page = (inr (), page)) ∧
  (has_column (cols ff) "CLASSE_CLIENT" = true →
   has_column (cols ff) "PRODUIT" = true →
     component2 ff page =
       (inr (), page ++ [ClasseProduit
          (groupby_sum (lex_le str_le str_le) key_classe_produit (recs ff))])) ∧
  (has_column (cols ff) "DV" = true →
   has_column (cols ff) "PRODUIT" = true →
     component4 ff page =
       (inr (), page ++ [DvProduit
          (groupby_sum (lex_le str_le str_le) key_dv_produit (recs ff))])).
Proof.
  unfold component2, component4, classe_produit, dv_produit.
  split_and!.
  - by intros ->.
  - by intros ->.
  - by intros -> ->.
  - by intros -> ->.
Qed.

Lemma normalise_cols (df : DataFrame) (f : Frame) :
  normalise df = inr f → cols f = strip_columns (columns df).
Proof.
  unfold normalise.
  destruct (mois_num_column _ _) as [?|ns]; [done|]. simpl.
  destruct (mapM num_lbl ns) as [?|ls]; [done|]. simpl.
  destruct (has_column _ "Annee saisie"); [|done]. by intros [= <-].
Qed.

(** On a whole run: a sheet without the class column never gets the
    Class x Product chart, one without the division column never gets the
    Division x Product chart. *)
Lemma run_without_optional_columns (df : DataFrame) (s : Selection) (e : event) :
  e ∈ (run df s).2 →
  (has_column (strip_columns (columns df)) "CLASSE_CLIENT" = false →
   is_classe_produit e = false) ∧
  (has_column (strip_columns (columns df)) "DV" = false →
   is_dv_produit e = false).
Proof.
  rewrite run_unfold.
  destruct (normalise df) as [?|f] eqn:Hf; simpl; [by intros ?%elem_of_nil|].
  apply normalise_cols in Hf.
  destruct (df_filt f (sel_prods s)) as [?|ff] eqn:Hff; simpl;
    [by intros ?%elem_of_nil|].
  apply df_filt_cols in Hff. rewrite Hf in Hff.
  unfold page_before_comparison, page_from_comparison, classe_produit, dv_produit.
  rewrite Hff.
  destruct (sel_mean_years s) as [|y ys]; simpl; intros He;
    (split; intros Hc; try rewrite Hc in He; simpl in He);
    repeat match type of He with
           | context [if ?b then _ else _] => destruct b
           end;
    set_unfold; naive_solver.
Qed.

(** ** Normalisation *)

Lemma mapM_length {A B} (g : A → res B) (l : list A) (l' : list B) :
  mapM g l = inr l' → length l' = length l.
Proof.
  revert l'. induction l as [|x l IH]; intros l'; simpl.
  - by intros [= <-].
  - destruct (g x) as [?|y]; [done|]. simpl.
    destruct (mapM g l) as [?|ys]; [done|]. simpl.
    intros [= <-]. simpl. f_equal. by apply IH.
Qed.

Lemma mois_num_column_length cs rs ns :
  mois_num_column cs rs = inr ns → length ns = length rs.
Proof.
  unfold mois_num_column.
  repeat destruct (has_column _ _); intros [= <-]; by rewrite length_fmap.
Qed.

Lemma num_lbl_mois_lbl (n : num) (l : string) :
  num_lbl n = inr l → mois_lbl (month_of n) = inr l.
Proof. by destruct n. Qed.

Lemma mapM_num_lbl (ns : list num) (ls : list string) :
  mapM num_lbl ns = inr ls → mapM mois_lbl (month_of <$> ns) = inr ls.
Proof.
  revert ls. induction ns as [|n ns IH]; intros ls; [done|].
  rewrite fmap_cons. cbn [mapM].
  destruct (num_lbl n) as [?|l] eqn:Hn; [done|].
  rewrite (num_lbl_mois_lbl _ _ Hn). simpl.
  destruct (mapM num_lbl ns) as [?|ls'] eqn:Hns; [done|].
  by rewrite (IH _ eq_refl).
Qed.

Lemma make_recs_mois_num rs ms ls :
  length ms = length rs → length ls = length rs →
  mois_num <$> make_recs rs ms ls = ms ∧ row <$> make_recs rs ms ls = rs.
Proof.
  intros Hms Hls. unfold make_recs. rewrite <- !list_fmap_compose. split.
  - transitivity ((zip (zip rs ms) ls).*1.*2);
      [by rewrite <- list_fmap_compose|].
    rewrite fst_zip by (rewrite length_zip; lia).
    apply snd_zip. lia.
  - transitivity ((zip (zip rs ms) ls).*1.*1);
      [by rewrite <- list_fmap_compose|].
    rewrite fst_zip by (rewrite length_zip; lia).
    apply fst_zip. lia.
Qed.

Lemma normalise_inv (df : DataFrame) (f : Frame) :
  normalise df = inr f →
  cols f = strip_columns (columns df) ∧
  row <$> recs f = default_un (strip_columns (columns df)) (rows df) ∧
  (∃ ns,
     mois_num_column (strip_columns (columns df))
       (default_un (strip_columns (columns df)) (rows df)) = inr ns ∧
     mois_num <$> recs f = month_of <$> ns ∧
     mapM num_lbl ns = inr (mois_lbl_full <$> recs f)) ∧
  mapM mois_lbl (mois_num <$> recs f) = inr (mois_lbl_full <$> recs f) ∧
  has_column (strip_columns (columns df)) "Annee saisie" = true.
Proof.
  unfold normalise.
  set (cs := strip_columns (columns df)). set (rs := default_un cs (rows df)).
  intros H.
  destruct (mois_num_column cs rs) as [?|ns] eqn:Hns; [done|]. simpl in H.
  destruct (mapM num_lbl ns) as [?|ls] eqn:Hls; [done|]. simpl in H.
  destruct (has_column cs "Annee saisie") eqn:Hy; [|done].
  injection H as <-. simpl.
  pose proof (mois_num_column_length _ _ _ Hns) as Hl1.
  pose proof (mapM_length _ _ _ Hls) as Hl2.
  assert (mois_lbl_full <$> make_recs rs (month_of <$> ns) ls = ls) as Hlbl.
  { unfold make_recs. rewrite <- list_fmap_compose.
    apply (snd_zip (zip rs (month_of <$> ns)) ls).
    rewrite length_zip, length_fmap. lia. }
  destruct (make_recs_mois_num rs (month_of <$> ns) ls) as [-> ->];
    [rewrite length_fmap; lia|lia|].
  rewrite Hlbl. split_and!; [done|done| |by apply mapM_num_lbl|done].
  by exists ns.
Qed.

Lemma default_un_months cs rs :
  Mois_saisie <$> default_un cs rs = Mois_saisie <$> rs ∧
  Mois_saisie_long <$> default_un cs rs = Mois_saisie_long <$> rs.
Proof.
  unfold default_un. destruct (has_column cs "un"); [done|].
  by rewrite <- !list_fmap_compose.
Qed.

(** ** Numeric coercion against the abbreviation table *)

Lemma digit_of_Some (zeros : list N) (c : N) (d : Z) :
  Py.digit_of zeros c = Some d →
  ∃ z, z ∈ zeros ∧ (z ≤ c ≤ z + 9)%N ∧ d = Z.of_N (c - z).
Proof.
  induction zeros as [|z zeros IH]; [done|]. cbn [Py.digit_of].
  destruct (_ && _) eqn:Hz.
  - intros [= <-]. exists z. split; [by left|].
    rewrite andb_true_iff, !N.leb_le in Hz. done.
  - intros (z' & Hin & Hz')%IH. exists z'. split; [by right|done].
Qed.

(** A decimal digit is an ASCII digit or lies above U+0660. *)
Lemma isdigit_cases (c : N) :
  Py.isdigit c = true → (48 ≤ c ≤ 57 ∨ 1632 ≤ c)%N.
Proof.
  unfold Py.isdigit. destruct (Py.digit_of _ c) as [d|] eqn:Hd; [|done].
  intros _. apply digit_of_Some in Hd as (z & Hin & Hz & _).
  assert (Forall (λ z, z = 48 ∨ 1632 ≤ z)%N Py.digit_zeros) as Hall
    by (apply (bool_decide_unpack _); by vm_compute).
  rewrite list.Forall_forall in Hall. destruct (Hall z Hin); lia.
Qed.

Lemma isdigit_false (c : N) : (58 ≤ c < 1632)%N → Py.isdigit c = false.
Proof.
  intros Hc. destruct (Py.isdigit c) eqn:Hd; [|done].
  apply isdigit_cases in Hd. lia.
Qed.

Lemma mapping_first_letter (c : N) (x : Py.str) (k : Z) :
  dict_get mapping (c :: x) = Some k → c ∈ first_letters.
Proof.
  intros H.
  let m := eval vm_compute in mapping in change mapping with m in H.
  cbn [dict_get] in H.
  repeat (destruct (decide _) as [Heq|_] in H;
          [injection Heq as -> _; unfold first_letters; set_solver|]).
  done.
Qed.

Lemma lower_char_first_letter (c : N) :
  Py.lower_char c ∈ first_letters →
  Py.isdigit c = false ∧ (c =? 45)%N = false ∧ (c =? 43)%N = false.
Proof.
  unfold first_letters, Py.lower_char. set_unfold. intros H.
  assert (65 ≤ c ≤ 122)%N as Hc.
  { repeat match type of H with
           | context [if ?b then _ else _] => destruct b
           end; lia. }
  split_and!.
  - apply isdigit_false. lia.
  - apply N.eqb_neq. lia.
  - apply N.eqb_neq. lia.
Qed.

Lemma table_text_first_char (t : Py.str) (k : Z) :
  dict_get mapping (take 3 (Py.lower t)) = Some k →
  ∃ c t', t = c :: t' ∧ Py.lower_char c ∈ first_letters.
Proof.
  destruct t as [|c t']; [done|]. intros H. exists c, t'. split; [done|].
  change (Py.lower (c :: t')) with (Py.lower_chars c ++ Py.lower t') in H.
  unfold Py.lower_chars in H. destruct (c =? 304)%N.
  - apply mapping_first_letter in H. exfalso. revert H.
    apply (bool_decide_unpack _). by vm_compute.
  - change (take 3 ([Py.lower_char c] ++ Py.lower t'))
      with (Py.lower_char c :: take 2 (Py.lower t')) in H.
    by eapply mapping_first_letter.
Qed.

(** Text that the abbreviation table resolves is not a number. *)
Lemma table_text_not_numeric (s : Py.str) (k : Z) :
  dict_get mapping (take 3 (Py.lower (Py.strip s))) = Some k →
  to_numeric (CStr s) = NaN.
Proof.
  intros (c & t' & Ht & Hc)%table_text_first_char. simpl.
  by eapply text_to_numeric_letter.
Qed.

(** Text that the abbreviation table resolves does not begin with a digit,
    so [month_from_long] answers from the table. *)
Lemma month_from_long_table (s : Py.str) (k : Z) :
  dict_get mapping (take 3 (Py.lower (Py.strip s))) = Some k →
  month_from_long (CStr s) = Some k.
Proof.
  intros Hk. pose proof Hk as (c & t' & Ht & Hc)%table_text_first_char.
  apply lower_char_first_letter in Hc as (Hd & _).
  unfold month_from_long; cbn [str_of_cell].
  replace (leading_digits (Py.strip s)) with (@None Z); [done|].
  rewrite Ht. unfold leading_digits. rewrite Hd. by destruct t'.
Qed.

(** ** Month column precedence *)

(** C10: when the sheet has the column "Mois saisie", the month of every
    record comes from that column alone: a number cell keeps its value, an
    empty cell gives no month, and a text cell that the abbreviation table
    would resolve gives no month either, so [month_from_long] decides no
    record.  The table is consulted only when "Mois saisie" is absent, in
    which case "Mois saisie long" is present and resolved row by row. *)
Theorem numeric_month_column_bypasses_resolver (df : DataFrame) (f : Frame) :
  normalise df = inr f →
  (has_column (strip_columns (columns df)) "Mois saisie" = true →
     mois_num <$> recs f = month_of ∘ to_numeric ∘ Mois_saisie <$> rows df ∧
     ∀ i r, rows df !! i = Some r →
       ∃ rc, recs f !! i = Some rc ∧
         (∀ z, Mois_saisie r = CInt z → mois_num rc = Some z) ∧
         (Mois_saisie r = CNull → mois_num rc = None) ∧
         (∀ s k, Mois_saisie r = CStr s →
            dict_get mapping (take 3 (Py.lower (Py.strip s))) = Some k →
            month_from_long (Mois_saisie r) = Some k ∧ mois_num rc = None)) ∧
  (has_column (strip_columns (columns df)) "Mois saisie" = false →
     has_column (strip_columns (columns df)) "Mois saisie long" = true ∧
     mois_num <$> recs f = month_from_long ∘ Mois_saisie_long <$> rows df).
Proof.
  intros (_ & _ & (ns & Hns & Hms & _) & _)%normalise_inv.
  unfold mois_num_column in Hns.
  split; intros Hc; rewrite Hc in Hns.
  - injection Hns as <-.
    assert (mois_num <$> recs f
            = month_of ∘ to_numeric ∘ Mois_saisie <$> rows df) as Heq.
    { rewrite Hms.
      transitivity (month_of ∘ to_numeric <$>
        (Mois_saisie <$> default_un (strip_columns (columns df)) (rows df)));
        [by rewrite <- !list_fmap_compose|].
      by rewrite (proj1 (default_un_months _ _)), <- list_fmap_compose. }
    split; [done|]. intros i r Hr.
    assert ((mois_num <$> recs f) !! i
            = Some (month_of (to_numeric (Mois_saisie r)))) as Hi
      by (by rewrite Heq, list_lookup_fmap, Hr).
    rewrite list_lookup_fmap in Hi.
    destruct (recs f !! i) as [rc|]; [|done]. injection Hi as Hi.
    exists rc. split; [done|]. rewrite Hi. split_and!.
    + by intros z ->.
    + by intros ->.
    + intros s k -> Hk. split; [by apply month_from_long_table|].
      by rewrite (table_text_not_numeric _ _ Hk).
  - destruct (has_column _ "Mois saisie long"); [|by destruct (has_column _ _)].
    injection Hns as <-. split; [done|].
    rewrite Hms.
    transitivity (month_of ∘ num_of_month ∘ month_from_long <$>
      (Mois_saisie_long <$> default_un (strip_columns (columns df)) (rows df)));
      [by rewrite <- !list_fmap_compose|].
    rewrite (proj2 (default_un_months _ _)), <- list_fmap_compose.
    apply list_fmap_ext. intros ? r _. simpl.
    by destruct (month_from_long _).
Qed.

(** ** Empty averaging set *)

(** C9: the averaging-years widget defaults to the empty list exactly when
    no record is of 2005 or 2006; with an empty averaging set the run stops
    on [ValueError] at the title of the comparison chart, with only what
    precedes that chart on the page and no comparison series. *)
Theorem empty_mean_years_abort :
  (∀ f : Frame,
     default_mean_years (YEARS f) = [] ↔
     ¬ ∃ r, r ∈ recs f ∧
         (Annee_saisie (row r) = Some 2005 ∨ Annee_saisie (row r) = Some 2006)) ∧
  (∀ (df : DataFrame) (s : Selection) (f ff : Frame),
     normalise df = inr f → df_filt f (sel_prods s) = inr ff →
     sel_mean_years s = [] →
     py_min (sel_mean_years s) = inl ValueError ∧
     run df s = (inl ValueError, page_before_comparison ff) ∧
     ∀ e, e ∈ (run df s).2 → is_comparison e = false).
Proof.
  split.
  - intros f. unfold default_mean_years.
    rewrite filter_cons, filter_cons, filter_nil.
    destruct (decide (2005 ∈ YEARS f)) as [H5|H5];
      destruct (decide (2006 ∈ YEARS f)) as [H6|H6];
      rewrite !elem_of_YEARS in *; split; try done; naive_solver.
  - intros df s f ff Hf Hff Hs.
    rewrite run_unfold, Hf, Hff, Hs. simpl. split_and!; [done..|].
    unfold page_before_comparison. intros e He.
    destruct (classe_produit ff); simpl in He; set_unfold; naive_solver.
Qed.

(** ** Month Resolver on the month abbreviations *)

(** C5: on every abbreviation of the two label lists of the script (the
    accented and the unaccented one), "Juin" excepted, written in any case
    and with any blanks around it, [month_from_long] returns the rank of the
    month, from 1 to 12. *)
Theorem month_from_long_abbreviations (k : nat) (a s : Py.str) :
  LABELS_MOIS_FR !! k = Some a ∨ (Py.of_string <$> LABELS_MOIS_ASCII) !! k = Some a →
  a ≠ Py.of_string "Juin" →
  Py.lower (Py.strip s) = Py.lower a →
  month_from_long (CStr s) = Some (Z.of_nat k + 1) ∧ 1 ≤ Z.of_nat k + 1 ≤ 12.
Proof.
  intros Ha Hjuin Hs.
  assert (dict_get mapping (take 3 (Py.lower a)) = Some (Z.of_nat k + 1)
          ∧ (k < 12)%nat) as [Hk Hlt].
  { do 12 (destruct k as [|k];
           [destruct Ha as [[= <-]|[= <-]]; split; (done || lia)|]).
    by destruct Ha. }
  split; [|lia]. apply month_from_long_table. by rewrite Hs.
Qed.

(** The excepted case: "Juin" is read as July. *)
Lemma month_from_long_juin :
  month_from_long (CStr (Py.of_string "Juin")) = Some 7.
Proof. reflexivity. Qed.

(** U+0130, the capital I with a dot above, lowers to i followed by a
    combining dot: "MA" and U+0130 read as May. *)
Lemma month_from_long_dotted_capital :
  Py.lower [77; 65; 304]%N = [109; 97; 105; 775]%N ∧
  month_from_long (CStr [77; 65; 304]%N) = Some 5.
Proof. split; reflexivity. Qed.

(** ** Sums per group *)

Lemma filter_none {A} (P : A → Prop) `{!∀ x, Decision (P x)} (l : list A) :
  (∀ x, x ∈ l → ¬ P x) → filter P l = [].
Proof.
  induction l as [|x l IH]; intros Hl; [done|].
  rewrite filter_cons_False by (apply Hl; by left).
  apply IH. intros y Hy. apply Hl. by right.
Qed.

Lemma filter_fmap {A B} (g : A → B) (P : B → Prop) `{!∀ y, Decision (P y)}
    (l : list A) :
  filter P (g <$> l) = g <$> filter (λ x, P (g x)) l.
Proof.
  induction l as [|x l IH]; [done|].
  rewrite fmap_cons, !filter_cons, IH. by destruct (decide (P (g x))).
Qed.

Lemma groupby_sum_default {K} `{EqDecision K} (le : relation K)
    `{!RelDecision le} (key : Rec → option K) (rs : list Rec) (k : K) :
  default 0 (dict_get (groupby_sum le key rs) k)
  = units (filter (λ r, key r = Some k) rs).
Proof.
  rewrite groupby_sum_lookup. case_decide as Hk; [done|]. simpl.
  rewrite filter_none; [done|].
  intros r Hr Hkey. apply Hk. apply elem_of_group_keys. eauto.
Qed.

Lemma key_annee_mois_Some (r : Rec) (y m : Z) :
  key_annee_mois r = Some (y, m) ↔ of_year_month y m r.
Proof.
  unfold key_annee_mois, of_year_month.
  destruct (Annee_saisie (row r)), (mois_num r); simpl; naive_solver.
Qed.

Lemma key_mois_annee_Some (r : Rec) (y m : Z) :
  key_mois_annee r = Some (m, y) ↔ of_year_month y m r.
Proof.
  unfold key_mois_annee, of_year_month.
  destruct (Annee_saisie (row r)), (mois_num r); simpl; naive_solver.
Qed.

(** The series of one year holds, for each month of 1..12, the sum of the
    year's records of that month. *)
Lemma serie_annee_lookup (f : Frame) (y m : Z) :
  1 ≤ m ≤ 12 →
  dict_get (serie_annee f y) m = Some (year_month_sum f y m).
Proof.
  intros Hm. unfold serie_annee.
  rewrite reindex_lookup by (by apply elem_of_range_1_13). f_equal.
  rewrite groupby_sum_default. unfold year_month_sum. f_equal.
  rewrite list_filter_filter. apply list_filter_iff.
  intros r. unfold of_year_month. naive_solver.
Qed.

Lemma year_month_sum_none (f : Frame) (y m : Z) :
  (∀ r, r ∈ recs f → ¬ of_year_month y m r) → year_month_sum f y m = 0.
Proof. intros H. unfold year_month_sum. by rewrite filter_none. Qed.

(** ** The average series *)

(** The keys of one month among sorted (year, month) keys: the years in
    ascending order. *)
Lemma sorted_keys_of_month (keys : list (Z * Z)) (m : Z) :
  StronglySorted (lex_le Z.le Z.le) keys → NoDup keys →
  StronglySorted Z.lt (fst <$> filter (λ k, k.2 = m) keys).
Proof.
  induction keys as [|k keys IH]; [constructor|].
  intros [Hk Hs]%StronglySorted_cons [Hn Hd]%list.NoDup_cons.
  rewrite filter_cons. destruct (decide (k.2 = m)) as [Hm|]; [|by apply IH].
  rewrite fmap_cons. apply StronglySorted_cons. split; [|by apply IH].
  rewrite Forall_fmap. apply list.Forall_forall.
  intros k' [Hm' Hin]%list_elem_of_filter.
  rewrite list.Forall_forall in Hk. specialize (Hk k' Hin).
  assert (k ≠ k') as Hne by (by intros ->).
  destruct k as [a b], k' as [c d]. unfold lex_le in Hk. simpl in *.
  destruct (decide (a = c)) as [->|]; [|lia]. subst. done.
Qed.

Lemma mean_lookup (f : Frame) (years : list Z) (m : Z) :
  1 ≤ m ≤ 12 →
  ∃ ys : list Z,
    StronglySorted Z.lt ys ∧
    (∀ y, y ∈ ys ↔ y ∈ years ∧ ∃ r, r ∈ recs f ∧ of_year_month y m r) ∧
    dict_get (mean f years) m
    = Some (match ys with
            | [] => 0%Q
            | _ => f64_mean ((λ y, year_month_sum f y m) <$> ys)
            end).
Proof.
  intros Hm. unfold mean.
  set (R := filter (λ r, Annee_saisie (row r) ∈ (Some <$> years)) (recs f)).
  set (keys := group_keys (lex_le Z.le Z.le) key_annee_mois R).
  exists (fst <$> filter (λ k, k.2 = m) keys).
  assert (∀ y, y ∈ (filter (λ k, k.2 = m) keys).*1 ↔
               y ∈ years ∧ ∃ r, r ∈ recs f ∧ of_year_month y m r) as Hys.
  { intros y. rewrite list_elem_of_fmap. split.
    - intros ([y' m'] & -> & [Hm' Hk]%list_elem_of_filter). simpl in *. subst m'.
      apply elem_of_group_keys in Hk as (r & Hr & Hkey).
      apply list_elem_of_filter in Hr as [Hy Hr].
      apply key_annee_mois_Some in Hkey. split; [|by eauto].
      destruct Hkey as [Hkey _]. rewrite Hkey in Hy.
      apply list_elem_of_fmap in Hy as (? & [= <-] & ?). done.
    - intros (Hy & r & Hr & Hkey). exists (y, m). split; [done|].
      apply list_elem_of_filter. split; [done|].
      apply elem_of_group_keys. exists r. split.
      + apply list_elem_of_filter. split; [|done].
        destruct Hkey as [-> _]. by apply list_elem_of_fmap_2.
      + by apply key_annee_mois_Some. }
  split_and!; [|done|].
  - apply sorted_keys_of_month; [|apply NoDup_group_keys].
    apply (StronglySorted_merge_sort (lex_le Z.le Z.le)).
  - rewrite reindex_lookup by (by apply elem_of_range_1_13). f_equal.
    unfold groupby_month_mean.
    rewrite (dict_get_fmap_key
               (λ m, f64_mean ((filter (λ e : Z * Z * Z, e.1.2 = m)
                  (groupby_sum (lex_le Z.le Z.le) key_annee_mois R)).*2))).
    assert ((filter (λ e : Z * Z * Z, e.1.2 = m)
               (groupby_sum (lex_le Z.le Z.le) key_annee_mois R)).*2
            = (λ y, year_month_sum f y m) <$> (filter (λ k, k.2 = m) keys).*1)
      as ->.
    { unfold groupby_sum. fold keys. rewrite filter_fmap. simpl.
      rewrite <- !list_fmap_compose. apply list_fmap_ext.
      intros i [y m'] [Hm' Hk]%list_elem_of_lookup_2%list_elem_of_filter.
      simpl in *. subst m'. unfold year_month_sum, units, R. do 2 f_equal.
      rewrite list_filter_filter. apply list_filter_iff. intros r.
      rewrite key_annee_mois_Some. split; [naive_solver|].
      intros Hr. split; [done|]. destruct Hr as [-> _].
      apply list_elem_of_fmap_2.
      assert (y ∈ (filter (λ k, k.2 = m) keys).*1) as Hy.
      { apply list_elem_of_fmap. exists (y, m). split; [done|].
        by apply list_elem_of_filter. }
      by apply Hys in Hy as [? _]. }
    case_decide as Hin.
    + apply elem_of_group_keys in Hin as ([[y m'] v] & He & [= Hm']).
      simpl in Hm'. subst m'.
      assert (y ∈ (filter (λ k, k.2 = m) keys).*1) as Hy.
      { apply list_elem_of_fmap. exists (y, m). split; [done|].
        apply list_elem_of_filter. split; [done|]. unfold keys.
        rewrite <- (groupby_sum_index (lex_le Z.le Z.le) key_annee_mois R).
        apply list_elem_of_fmap. by exists (y, m, v). }
      destruct ((filter (λ k, k.2 = m) keys).*1); [by apply elem_of_nil in Hy|done].
    + destruct ((filter (λ k, k.2 = m) keys).*1) as [|y ys'] eqn:Hl; [done|].
      exfalso. apply Hin.
      assert (y ∈ (filter (λ k, k.2 = m) keys).*1) as Hy by (rewrite Hl; by left).
      apply list_elem_of_fmap in Hy as ([y' m'] & -> & [Hm' Hk]%list_elem_of_filter).
      simpl in *. subst m'. unfold keys in Hk.
      rewrite <- (groupby_sum_index (lex_le Z.le Z.le) key_annee_mois R) in Hk.
      apply list_elem_of_fmap in Hk as (e & He1 & He).
      apply elem_of_group_keys. exists e. split; [done|]. by rewrite <- He1.
Qed.

(** ** The heatmap table *)

Lemma elem_of_groupby_sum {K} `{EqDecision K} (le : relation K)
    `{!RelDecision le} (key : Rec → option K) (rs : list Rec) (k : K) :
  (∃ e, e ∈ groupby_sum le key rs ∧ e.1 = k) ↔ k ∈ group_keys le key rs.
Proof.
  rewrite <- (groupby_sum_index le key rs), list_elem_of_fmap. naive_solver.
Qed.

Lemma elem_of_pivot_columns (f : Frame) (y : Z) :
  y ∈ pivot_columns (pivot f) ↔
  ∃ m, (m, y) ∈ group_keys (lex_le Z.le Z.le) key_mois_annee (recs f).
Proof.
  unfold pivot, reindex_rows, unstack. cbn [pivot_columns].
  rewrite elem_of_group_keys. split.
  - intros ([[m y'] v] & He & [= ->]). exists m.
    apply elem_of_groupby_sum. by exists (m, y, v).
  - intros (m & ([[m' y'] v] & He & [= -> ->])%elem_of_groupby_sum).
    by exists (m, y, v).
Qed.

Lemma pivot_columns_records (f : Frame) (y : Z) :
  y ∈ pivot_columns (pivot f) ↔
  ∃ r, r ∈ recs f ∧ Annee_saisie (row r) = Some y ∧ is_Some (mois_num r).
Proof.
  rewrite elem_of_pivot_columns. split.
  - intros (m & (r & Hr & [Hy Hmo]%key_mois_annee_Some)%elem_of_group_keys).
    exists r. by rewrite Hmo.
  - intros (r & Hr & Hy & [m Hmo]). exists m.
    apply elem_of_group_keys. exists r. split; [done|].
    by apply key_mois_annee_Some.
Qed.

Lemma pivot_index (f : Frame) : (pivot_rows (pivot f)).*1 = range_1_13.
Proof. unfold pivot, reindex_rows. cbn [pivot_rows]. apply fst_fmap_key. Qed.

Lemma pivot_rows_eq (f : Frame) :
  pivot_rows (pivot f)
  = (λ m, (m, (λ y, dict_get (groupby_sum (lex_le Z.le Z.le) key_mois_annee (recs f)) (m, y))
                <$> pivot_columns (pivot f))) <$> range_1_13.
Proof.
  unfold pivot, reindex_rows. cbn [pivot_rows pivot_columns].
  set (S := groupby_sum (lex_le Z.le Z.le) key_mois_annee (recs f)).
  apply list_fmap_ext. intros _ m _. f_equal.
  set (ys := pivot_columns (unstack S)).
  change (pivot_rows (unstack S))
    with ((λ m, (m, (λ y, dict_get S (m, y)) <$> ys))
            <$> group_keys Z.le (λ e : Z * Z * Z, Some e.1.1) S).
  rewrite (dict_get_fmap_key (λ m, (λ y, dict_get S (m, y)) <$> ys)).
  case_decide as Hin; [done|]. simpl.
  apply list_fmap_ext. intros i y _.
  unfold S. rewrite groupby_sum_lookup. rewrite decide_False; [done|].
  intros Hk. apply Hin. apply elem_of_group_keys.
  apply elem_of_groupby_sum in Hk as (e & He & Hk). exists e.
  by rewrite Hk.
Qed.

Lemma pivot_row_lookup (f : Frame) (m : Z) :
  1 ≤ m ≤ 12 →
  dict_get (pivot_rows (pivot f)) m
  = Some ((λ y, dict_get (groupby_sum (lex_le Z.le Z.le) key_mois_annee (recs f)) (m, y))
            <$> pivot_columns (pivot f)).
Proof.
  intros Hm. rewrite pivot_rows_eq.
  rewrite (dict_get_fmap_key (λ m, _ <$> pivot_columns (pivot f))).
  by rewrite decide_True by (by apply elem_of_range_1_13).
Qed.

(** A cell of the heatmap table is empty when no record has that month and
    year, and holds the sum of their unit counts otherwise. *)
Lemma pivot_cell_spec (f : Frame) (m y : Z) :
  1 ≤ m ≤ 12 →
  pivot_cell (pivot f) m y
  = match filter (of_year_month y m) (recs f) with
    | [] => None
    | rs => Some (units rs)
    end.
Proof.
  intros Hm. unfold pivot_cell. rewrite pivot_row_lookup by done. simpl.
  set (S := groupby_sum (lex_le Z.le Z.le) key_mois_annee (recs f)).
  assert (dict_get S (m, y)
          = match filter (of_year_month y m) (recs f) with
            | [] => None
            | rs => Some (units rs)
            end) as HS.
  { unfold S. rewrite groupby_sum_lookup.
    rewrite (list_filter_iff _ (of_year_month y m))
      by (intros r; apply key_mois_annee_Some).
    case_decide as Hk.
    - apply elem_of_group_keys in Hk as (r & Hr & Hk%key_mois_annee_Some).
      destruct (filter _ _) as [|r' rs] eqn:Hf; [|done].
      exfalso. by eapply (filter_nil_not_elem_of _ _ r).
    - rewrite filter_none; [done|]. intros r Hr Hk'. apply Hk.
      apply elem_of_group_keys. exists r. by rewrite key_mois_annee_Some. }
  destruct (list_find _ _) as [[i y']|] eqn:Hfind; simpl.
  - apply list_find_Some in Hfind as (Hi & -> & _).
    by rewrite list_lookup_fmap, Hi.
  - rewrite <- HS. symmetry. unfold S. rewrite groupby_sum_lookup.
    rewrite decide_False; [done|]. intros Hk.
    apply list_find_None in Hfind.
    assert (y ∈ pivot_columns (pivot f)) as Hy
      by (apply elem_of_pivot_columns; eauto).
    rewrite list.Forall_forall in Hfind. by apply (Hfind y Hy).
Qed.

Lemma range_1_13_eq : range_1_13 = [1; 2; 3; 4; 5; 6; 7; 8; 9; 10; 11; 12].
Proof. reflexivity. Qed.

Lemma run_with_mean_years (df : DataFrame) (s : Selection) (f ff : Frame) :
  normalise df = inr f → df_filt f (sel_prods s) = inr ff →
  sel_mean_years s ≠ [] →
  ∃ lo hi,
    run df s
    = (inr (), page_before_comparison ff ++ page_from_comparison f ff s lo hi).
Proof.
  intros Hf Hff Hs. rewrite run_unfold, Hf, Hff.
  destruct (sel_mean_years s) as [|y ys]; [done|]. simpl. eauto.
Qed.

(** ** The comparison series *)

(** C6: with a non-empty averaging set the run reaches the comparison chart,
    and each of its three series (bar, line, average) is indexed by the
    months 1..12 in order, twelve values, the value being 0 for a month
    without matching record. *)
Theorem comparison_series_twelve_months
    (df : DataFrame) (s : Selection) (f ff : Frame) :
  normalise df = inr f → df_filt f (sel_prods s) = inr ff →
  sel_mean_years s ≠ [] →
  (∃ lo hi,
     run df s
     = (inr (), page_before_comparison ff ++ page_from_comparison f ff s lo hi)) ∧
  (serie_bar ff s).*1 = [1; 2; 3; 4; 5; 6; 7; 8; 9; 10; 11; 12] ∧
  (serie_line ff s).*1 = [1; 2; 3; 4; 5; 6; 7; 8; 9; 10; 11; 12] ∧
  (mean ff (sel_mean_years s)).*1 = [1; 2; 3; 4; 5; 6; 7; 8; 9; 10; 11; 12] ∧
  ∀ m, 1 ≤ m ≤ 12 →
    ((∀ r, r ∈ recs ff → ¬ of_year_month (sel_year_bar s) m r) →
       dict_get (serie_bar ff s) m = Some 0) ∧
    ((∀ r, r ∈ recs ff → ¬ of_year_month (sel_year_line s) m r) →
       dict_get (serie_line ff s) m = Some 0) ∧
    ((∀ r y, r ∈ recs ff → y ∈ sel_mean_years s → ¬ of_year_month y m r) →
       dict_get (mean ff (sel_mean_years s)) m = Some 0%Q).
Proof.
  intros Hf Hff Hs. split; [by apply run_with_mean_years|].
  unfold serie_bar, serie_line, serie_annee, mean.
  rewrite !reindex_index, range_1_13_eq. split_and!; [done..|].
  intros m Hm. rewrite <- range_1_13_eq. split_and!.
  - intros Hnone. fold (serie_annee ff (sel_year_bar s)).
    rewrite serie_annee_lookup by done. by rewrite year_month_sum_none.
  - intros Hnone. fold (serie_annee ff (sel_year_line s)).
    rewrite serie_annee_lookup by done. by rewrite year_month_sum_none.
  - intros Hnone. fold (mean ff (sel_mean_years s)).
    destruct (mean_lookup ff (sel_mean_years s) m Hm) as (ys & _ & Hys & ->).
    destruct ys as [|y ys]; [done|].
    destruct (proj1 (Hys y)) as (Hy & r & Hr & Hym); [by left|].
    by destruct (Hnone r y).
Qed.

(** ** The average series against the means of the spec *)

(** C1, as amended: for every month m of 1..12 the average series holds the
    mean, computed by pandas in float64, of the per-year int64 sums of
    month m, taken over those years of the averaging set that have at least
    one record of month m, in ascending order (0 when there is none); a
    selected year without record for m is left out of the mean, it does not
    count for 0.  This is not the flat mean of the records' unit counts:
    with 1 and 3 units in January 2019 and 8 in January 2020 the series
    holds 6 for January, the flat mean being 4. *)
Theorem mean_over_observed_years (f : Frame) (years : list Z) (m : Z) :
  1 ≤ m ≤ 12 →
  (∃ ys : list Z,
     StronglySorted Z.lt ys ∧
     (∀ y, y ∈ ys ↔ y ∈ years ∧ ∃ r, r ∈ recs f ∧ of_year_month y m r) ∧
     dict_get (mean f years) m
     = Some (match ys with
             | [] => 0%Q
             | _ => f64_mean ((λ y, year_month_sum f y m) <$> ys)
             end)) ∧
  (∃ (f' : Frame) (years' : list Z) (v : Q),
     dict_get (mean f' years') 1 = Some v ∧ (v == 6)%Q ∧
     (flat_mean f' years' 1 == 4)%Q).
Proof.
  intros Hm. split; [by apply mean_lookup|].
  exists (frame_of (sheet [mkrow (CInt 1) 2019 "A" 1; mkrow (CInt 1) 2019 "A" 3;
                           mkrow (CInt 1) 2020 "A" 8])), [2019; 2020].
  eexists. split_and!; [vm_compute; reflexivity| |by vm_compute].
  apply (f64_mean_whole [4; 8] 6); [done| |by vm_compute..].
  repeat constructor; lia.
Qed.

(** ** The heatmap and the product filter *)

(** In a run the heatmap is the first chart on the page and it is the
    pivot of the product-filtered view. *)
Lemma run_head (df : DataFrame) (s : Selection) (f ff : Frame) :
  normalise df = inr f → df_filt f (sel_prods s) = inr ff →
  head (run df s).2 = Some (Heatmap (pivot ff)).
Proof.
  intros Hf Hff. rewrite run_unfold, Hf, Hff. unfold page_before_comparison.
  by destruct (sel_mean_years s).
Qed.

(** The heatmap is computed from the product-filtered view: under a
    non-empty product selection each of its cells for a month of 1..12 is
    the int64 sum of the unit counts of the records of that month and year
    whose product is selected, and is empty when there is no such record. *)
Lemma heatmap_of_filtered_view
    (df : DataFrame) (s : Selection) (f ff : Frame) (m y : Z) :
  normalise df = inr f → df_filt f (sel_prods s) = inr ff →
  sel_prods s ≠ [] → 1 ≤ m ≤ 12 →
  head (run df s).2 = Some (Heatmap (pivot ff)) ∧
  pivot_cell (pivot ff) m y
  = match filter (λ r, of_year_month y m r
                       ∧ astype_str (PRODUIT (row r)) ∈ sel_prods s) (recs f) with
    | [] => None
    | rs => Some (units rs)
    end.
Proof.
  intros Hf Hff Hs Hm. split; [by eapply run_head|].
  rewrite pivot_cell_spec by done.
  rewrite (df_filt_selection f ff (sel_prods s)) by done.
  by rewrite list_filter_filter.
Qed.

(** C2: the heatmap follows the product selection.  On a sheet with 5 units
    of product A and 3 units of product B in January 2020, the heatmap of a
    run that selects A alone holds 5 for January 2020, and the heatmap of a
    run without product filter holds 8, whatever the years selected. *)
Theorem heatmap_follows_product_selection (bar line : Z) (years : list Z) :
  ∃ p p0 : Pivot,
    head (run two_product_sheet
            {| sel_prods := ["A"%string]; sel_year_bar := bar;
               sel_year_line := line; sel_mean_years := years |}).2
    = Some (Heatmap p) ∧
    head (run two_product_sheet
            {| sel_prods := []; sel_year_bar := bar;
               sel_year_line := line; sel_mean_years := years |}).2
    = Some (Heatmap p0) ∧
    pivot_cell p 1 2020 = Some 5 ∧ pivot_cell p0 1 2020 = Some 8.
Proof.
  assert (normalise two_product_sheet = inr (frame_of two_product_sheet)) as Hf
    by (by vm_compute).
  set (f := frame_of two_product_sheet) in *.
  set (ff := {| cols := cols f;
                recs := filter (λ r, astype_str (PRODUIT (row r)) ∈ ["A"%string])
                          (recs f) |}).
  exists (pivot ff), (pivot f). split_and!.
  - by apply (run_head _ _ f).
  - by apply (run_head _ _ f).
  - by vm_compute.
  - by vm_compute.
Qed.
(** ** Shape of the heatmap table *)

(** C7, as amended: the columns of the heatmap table are, in ascending
    order and without repetition, exactly the years of the aggregated
    records that have a resolved month; the year of a record whose month is
    unresolved gives no column.  The rows are the months 1..12 in order,
    whether or not they have data, each with one cell per column. *)
Theorem heatmap_columns_and_rows (f : Frame) :
  (∀ y, y ∈ pivot_columns (pivot f) ↔
        ∃ r, r ∈ recs f ∧ Annee_saisie (row r) = Some y ∧ is_Some (mois_num r)) ∧
  NoDup (pivot_columns (pivot f)) ∧
  Sorted Z.le (pivot_columns (pivot f)) ∧
  (pivot_rows (pivot f)).*1 = [1; 2; 3; 4; 5; 6; 7; 8; 9; 10; 11; 12] ∧
  ∀ m cells, (m, cells) ∈ pivot_rows (pivot f) →
    length cells = length (pivot_columns (pivot f)).
Proof.
  split_and!.
  - apply pivot_columns_records.
  - apply NoDup_group_keys.
  - apply (Sorted_merge_sort Z.le).
  - by rewrite pivot_index.
  - intros m cells Hin. rewrite pivot_rows_eq in Hin.
    apply list_elem_of_fmap in Hin as (m' & [= <- ->] & _).
    by rewrite length_fmap.
Qed.

(** ** Months that are unresolved or outside 1..12 *)

Lemma mois_lbl_unresolved : mois_lbl None = inr ""%string.
Proof. reflexivity. Qed.

(** The label of line 63 exists exactly for the months -11..12: the index
    [i - 1] must fall within the twelve labels, counted from either end. *)
Lemma mois_lbl_error (i : Z) :
  mois_lbl (Some i) = inl IndexError ↔ i < -11 ∨ 12 < i.
Proof.
  unfold mois_lbl, Py.getitem.
  change (Z.of_nat (length LABELS_MOIS_ASCII)) with 12.
  destruct (decide (0 ≤ i - 1 < 12)) as [Hpos|Hpos].
  - rewrite (proj2 (andb_true_iff _ _)) by (split; lia).
    destruct (LABELS_MOIS_ASCII !! Z.to_nat (i - 1)) eqn:Hl; [split; [done|lia]|].
    apply lookup_ge_None in Hl. simpl in Hl. lia.
  - rewrite (proj2 (andb_false_iff _ _)) by lia.
    destruct (decide (-12 ≤ i - 1 < 0)) as [Hneg|Hneg].
    + rewrite (proj2 (andb_true_iff _ _)) by (split; lia).
      destruct (LABELS_MOIS_ASCII !! Z.to_nat (12 + (i - 1))) eqn:Hl;
        [split; [done|lia]|].
      apply lookup_ge_None in Hl. simpl in Hl. lia.
    + rewrite (proj2 (andb_false_iff _ _)) by lia. split; [lia|done].
Qed.

Lemma mapM_mois_lbl_error (ms : list (option Z)) (i : Z) :
  Some i ∈ ms → i < -11 ∨ 12 < i → mapM mois_lbl ms = inl IndexError.
Proof.
  intros Hin Hi. induction ms as [|x ms IH]; [by apply elem_of_nil in Hin|].
  cbn [mapM]. apply elem_of_cons in Hin as [<-|Hin].
  - by rewrite (proj2 (mois_lbl_error i)).
  - destruct (mois_lbl x) as [e|l] eqn:Hx.
    + destruct x as [z|]; [|done]. unfold mois_lbl in Hx.
      by destruct (Py.getitem _ _); simplify_eq.
    + simpl. by rewrite IH.
Qed.

Lemma mapM_num_lbl_of_month (ms : list (option Z)) :
  mapM num_lbl (num_of_month <$> ms) = mapM mois_lbl ms.
Proof.
  induction ms as [|x ms IH]; [done|].
  rewrite fmap_cons. cbn [mapM]. rewrite IH. by destruct x.
Qed.

(** On a sheet whose months come from "Mois saisie long", a record whose
    month resolves to an integer above 12 (or below -11) stops the run at
    line 63, before anything is on the page. *)
Lemma out_of_range_month_stops_run
    (df : DataFrame) (s : Selection) (r : Row) (i : Z) :
  has_column (strip_columns (columns df)) "Mois saisie" = false →
  has_column (strip_columns (columns df)) "Mois saisie long" = true →
  r ∈ rows df → month_from_long (Mois_saisie_long r) = Some i →
  i < -11 ∨ 12 < i →
  run df s = (inl IndexError, []).
Proof.
  intros Hc Hl Hr Hm Hi. rewrite run_unfold. unfold normalise, mois_num_column.
  rewrite Hc, Hl. simpl.
  rewrite (list_fmap_compose (month_from_long ∘ Mois_saisie_long) num_of_month).
  rewrite mapM_num_lbl_of_month, (mapM_mois_lbl_error _ i); [done| |done].
  rewrite (list_fmap_compose Mois_saisie_long month_from_long).
  rewrite (proj2 (default_un_months _ _)), <- list_fmap_compose.
  apply list_elem_of_fmap. by exists r.
Qed.

(** C3: a sheet with one record whose month cell reads "13".  The Month
    Resolver returns 13, the label of line 63 indexes the twelve labels at
    12, and the run stops on [IndexError] with an empty page, whatever the
    selection. *)
Theorem month_13_stops_the_run (s : Selection) :
  month_from_long (CStr (Py.of_string "13")) = Some 13 ∧
  mois_lbl (Some 13) = inl IndexError ∧
  run (sheet [mkrow (CStr (Py.of_string "13")) 2020 "A" 1]) s
  = (inl IndexError, []).
Proof.
  split_and!; [done..|].
  eapply (out_of_range_month_stops_run _ _ _ 13); [done|done|by left|done|lia].
Qed.

Lemma sorted_lt_unique (l1 l2 : list Z) :
  StronglySorted Z.lt l1 → StronglySorted Z.lt l2 →
  (∀ y, y ∈ l1 ↔ y ∈ l2) → l1 = l2.
Proof.
  intros H1 H2 Hiff.
  assert (∀ l, StronglySorted Z.lt l → NoDup l) as Hnd.
  { induction 1 as [|x l _ IH Hx]; constructor; [|done].
    intros Hin. rewrite list.Forall_forall in Hx. specialize (Hx x Hin). lia. }
  apply (StronglySorted_unique_strong Z.lt); [intros; lia|done..|].
  apply NoDup_Permutation; auto.
Qed.

Lemma of_year_month_usable (y m : Z) (r : Rec) :
  1 ≤ m ≤ 12 → of_year_month y m r → usable_month r.
Proof. intros Hm [_ Hr]. unfold usable_month. by rewrite Hr. Qed.

Lemma year_month_sum_usable (f : Frame) (y m : Z) :
  1 ≤ m ≤ 12 →
  year_month_sum (drop_unusable_months f) y m = year_month_sum f y m.
Proof.
  intros Hm. unfold year_month_sum, drop_unusable_months. cbn [recs].
  rewrite list_filter_filter. f_equal. apply list_filter_iff.
  intros r. split; [naive_solver|]. intros Hr. split; [done|].
  by eapply of_year_month_usable.
Qed.

Lemma reindex_ext {V} (s s' : list (Z * V)) (index : list Z) (fill : V) :
  (∀ m, m ∈ index →
        dict_get (reindex s index fill) m = dict_get (reindex s' index fill) m) →
  reindex s index fill = reindex s' index fill.
Proof.
  intros H. unfold reindex. apply list_fmap_ext.
  intros i m Hm%list_elem_of_lookup_2. f_equal.
  specialize (H m Hm). rewrite !reindex_lookup in H by done. by injection H.
Qed.

(** The records whose month is unresolved or outside 1..12 contribute to no
    value of the month-keyed aggregations: removing them changes neither
    the series of a year, nor the average series, nor a cell of the
    heatmap. *)
Lemma unusable_months_excluded (f : Frame) :
  (∀ y, serie_annee (drop_unusable_months f) y = serie_annee f y) ∧
  (∀ years, mean (drop_unusable_months f) years = mean f years) ∧
  (∀ m y, 1 ≤ m ≤ 12 →
     pivot_cell (pivot (drop_unusable_months f)) m y = pivot_cell (pivot f) m y).
Proof.
  split_and!.
  - intros y. apply reindex_ext. intros m Hm%elem_of_range_1_13.
    fold (serie_annee (drop_unusable_months f) y). fold (serie_annee f y).
    rewrite !serie_annee_lookup by done. by rewrite year_month_sum_usable.
  - intros years. apply reindex_ext. intros m Hm%elem_of_range_1_13.
    fold (mean (drop_unusable_months f) years). fold (mean f years).
    destruct (mean_lookup (drop_unusable_months f) years m Hm)
      as (ys1 & Hnd1 & Hys1 & ->).
    destruct (mean_lookup f years m Hm) as (ys2 & Hnd2 & Hys2 & ->).
    assert (ys1 = ys2) as ->.
    { apply sorted_lt_unique; [done..|]. intros y. rewrite Hys1, Hys2.
      unfold drop_unusable_months. cbn [recs].
      split; intros (Hy & r & Hr & Hym); (split; [done|]); exists r.
      - apply list_elem_of_filter in Hr as [_ Hr]. done.
      - split; [|done]. apply list_elem_of_filter. split; [|done].
        by eapply of_year_month_usable. }
    rewrite (list_fmap_ext (λ y, year_month_sum (drop_unusable_months f) y m)
               (λ y, year_month_sum f y m) ys2); [done|].
    intros _ y _. by apply year_month_sum_usable.
  - intros m y Hm. rewrite !pivot_cell_spec by done.
    unfold drop_unusable_months. cbn [recs].
    rewrite list_filter_filter.
    rewrite (list_filter_iff _ (of_year_month y m)); [done|].
    intros r. split; [naive_solver|]. intros Hr. split; [done|].
    by eapply of_year_month_usable.
Qed.

(** * Further properties of the script *)

(** ** Month Resolver: blanks and case *)

Lemma isspace_spec (c : N) :
  Py.isspace c = true ↔
  (9 ≤ c ≤ 13 ∨ 28 ≤ c ≤ 32 ∨ c = 133 ∨ c = 160 ∨ c = 5760 ∨ 8192 ≤ c ≤ 8202
   ∨ c = 8232 ∨ c = 8233 ∨ c = 8239 ∨ c = 8287 ∨ c = 12288)%N.
Proof.
  unfold Py.isspace.
  rewrite !orb_true_iff, !andb_true_iff, !N.leb_le, !N.eqb_eq. tauto.
Qed.

Lemma lower_char_cases (c : N) :
  ((65 ≤ c ≤ 90 ∨ 192 ≤ c ≤ 222 ∧ c ≠ 215) ∧ Py.lower_char c = c + 32
   ∨ (c = 376 ∨ c = 7838 ∨ c = 8490 ∨ c = 8491)
     ∧ (Py.lower_char c = 255 ∨ Py.lower_char c = 223
        ∨ Py.lower_char c = 107 ∨ Py.lower_char c = 229)
   ∨ ¬ (65 ≤ c ≤ 90 ∨ 192 ≤ c ≤ 222 ∧ c ≠ 215) ∧ Py.lower_char c = c)%N.
Proof.
  unfold Py.lower_char.
  destruct (_ || _) eqn:Hb.
  - left. split; [|done].
    rewrite orb_true_iff, !andb_true_iff, negb_true_iff, !N.leb_le, N.eqb_neq in Hb.
    tauto.
  - rewrite orb_false_iff, !andb_false_iff, negb_false_iff, !N.leb_gt, N.eqb_eq in Hb.
    destruct (N.eqb_spec c 376) as [->|?];
      [right; left; split; by left|].
    destruct (N.eqb_spec c 7838) as [->|?];
      [right; left; split; right; by left|].
    destruct (N.eqb_spec c 8490) as [->|?];
      [right; left; split; do 2 right; by left|].
    destruct (N.eqb_spec c 8491) as [->|?];
      [right; left; split; by do 3 right|].
    right. right. split; [lia|done].
Qed.

Lemma isspace_lower_char (c : N) : Py.isspace (Py.lower_char c) = Py.isspace c.
Proof.
  apply eq_true_iff_eq. rewrite !isspace_spec.
  destruct (lower_char_cases c) as [[Hc ->]|[[Hc Hl]|[Hc ->]]]; lia.
Qed.

Lemma isdigit_lower_char (c : N) : Py.isdigit (Py.lower_char c) = Py.isdigit c.
Proof.
  destruct (lower_char_cases c) as [[Hc ->]|[[Hc Hl]|[Hc ->]]]; [| |done].
  - rewrite !isdigit_false; [done|lia..].
  - rewrite (isdigit_false (Py.lower_char c)) by lia.
    by destruct Hc as [-> | [-> | [-> | ->]]].
Qed.

Lemma lower_char_digit (c : N) : Py.isdigit c = true → Py.lower_char c = c.
Proof.
  intros Hd. destruct (lower_char_cases c) as [[Hc ->]|[[Hc Hl]|[Hc ->]]];
    [apply isdigit_cases in Hd; lia| |done].
  by destruct Hc as [-> | [-> | [-> | ->]]].
Qed.

Lemma lower_char_idemp (c : N) : Py.lower_char (Py.lower_char c) = Py.lower_char c.
Proof.
  destruct (lower_char_cases c) as [[Hc Hl]|[[Hc Hl]|[Hc Hl]]].
  - rewrite Hl.
    destruct (lower_char_cases (c + 32)) as [[Hc' _]|[[Hc' _]|[_ ->]]];
      [lia|lia|done].
  - by destruct Hl as [-> | [-> | [-> | ->]]].
  - by rewrite !Hl.
Qed.

Lemma lower_char_not_dotted (c : N) : c ≠ 304%N → Py.lower_char c ≠ 304%N.
Proof.
  intros Hne.
  destruct (lower_char_cases c) as [[Hc Hl]|[[Hc Hl]|[Hc Hl]]]; [lia|lia|].
  by rewrite Hl.
Qed.

Lemma lower_cons (c : N) (s : Py.str) :
  Py.lower (c :: s) = Py.lower_chars c ++ Py.lower s.
Proof. reflexivity. Qed.

(** What [lower] makes of one code point is not empty, begins with a blank
    only if the code point is that blank, and with a digit only if it is
    that digit; so does its mirror image. *)
Lemma lower_chars_head (c : N) :
  (Py.isspace c = true ∨ Py.isdigit c = true) ∧ Py.lower_chars c = [c]
  ∨ Py.isspace c = false ∧ Py.isdigit c = false ∧
    ∃ d d' t t', Py.lower_chars c = d :: t ∧ reverse (Py.lower_chars c) = d' :: t'
                 ∧ Py.isspace d = false ∧ Py.isdigit d = false
                 ∧ Py.isspace d' = false.
Proof.
  unfold Py.lower_chars. destruct (N.eqb_spec c 304) as [->|Hc].
  { right. split_and!; [done..|]. by eexists _, _, _, _. }
  destruct (Py.isspace c) eqn:Hs.
  { left. split; [by left|]. f_equal.
    apply isspace_spec in Hs.
    destruct (lower_char_cases c) as [[? ?]|[[? ?]|[_ ->]]]; [lia|lia|done]. }
  destruct (Py.isdigit c) eqn:Hd.
  { left. split; [by right|]. by rewrite lower_char_digit. }
  right. split_and!; [done..|].
  exists (Py.lower_char c), (Py.lower_char c), [], [].
  by rewrite isspace_lower_char, isdigit_lower_char.
Qed.

Lemma lower_idemp (s : Py.str) : Py.lower (Py.lower s) = Py.lower s.
Proof.
  induction s as [|c s IH]; [done|].
  rewrite lower_cons. unfold Py.lower at 1. rewrite bind_app.
  fold (Py.lower (Py.lower s)). rewrite IH. f_equal.
  unfold Py.lower_chars. destruct (N.eqb_spec c 304) as [->|Hc]; [done|].
  cbn. rewrite app_nil_r.
  destruct (N.eqb_spec (Py.lower_char c) 304) as [Heq|_];
    [by apply lower_char_not_dotted in Heq|].
  by rewrite lower_char_idemp.
Qed.

(** Stripping on the left commutes with a code-point-wise rewriting that
    keeps blanks and turns no other code point into text that starts with
    a blank. *)
Lemma lstrip_bind (g : N → Py.str) (s : Py.str) :
  (∀ c, Py.isspace c = true → g c = [c]) →
  (∀ c, Py.isspace c = false → ∃ d t, g c = d :: t ∧ Py.isspace d = false) →
  Py.lstrip (s ≫= g) = Py.lstrip s ≫= g.
Proof.
  intros Hsp Hns. induction s as [|c s IH]; [done|].
  change ((c :: s) ≫= g) with (g c ++ (s ≫= g)). cbn [Py.lstrip].
  destruct (Py.isspace c) eqn:Hc.
  - rewrite (Hsp c Hc). simpl. by rewrite Hc.
  - destruct (Hns c Hc) as (d & t & Hg & Hd). rewrite Hg. simpl.
    rewrite Hd. change ((c :: s) ≫= g) with (g c ++ (s ≫= g)). by rewrite Hg.
Qed.

Lemma lstrip_lower (s : Py.str) : Py.lstrip (Py.lower s) = Py.lower (Py.lstrip s).
Proof.
  apply lstrip_bind.
  - intros c Hc. destruct (lower_chars_head c) as [[_ ?]|(Hs & _)]; [done|].
    congruence.
  - intros c Hc.
    destruct (lower_chars_head c)
      as [[[?|Hd] Hl]|(_ & _ & d & d' & t & t' & Hl & _ & Hd & _)].
    + congruence.
    + exists c, []. by rewrite Hl.
    + by exists d, t.
Qed.

Lemma reverse_bind (g : N → Py.str) (s : Py.str) :
  reverse (s ≫= g) = reverse s ≫= (reverse ∘ g).
Proof.
  induction s as [|c s IH]; [done|].
  change ((c :: s) ≫= g) with (g c ++ (s ≫= g)).
  rewrite reverse_app, reverse_cons, IH, bind_app. simpl.
  by rewrite app_nil_r.
Qed.

Lemma strip_lower (s : Py.str) : Py.strip (Py.lower s) = Py.lower (Py.strip s).
Proof.
  unfold Py.strip, Py.rstrip. rewrite lstrip_lower.
  unfold Py.lower. rewrite !reverse_bind.
  rewrite (lstrip_bind (reverse ∘ Py.lower_chars)).
  - rewrite reverse_bind.
    apply list_bind_ext; [|done]. intros c. simpl. apply reverse_involutive.
  - intros c Hc. simpl.
    destruct (lower_chars_head c) as [[_ ->]|(Hs & _)]; [done|congruence].
  - intros c Hc. simpl.
    destruct (lower_chars_head c)
      as [[[?|Hd] Hl]|(_ & _ & d & d' & t & t' & _ & Hl & _ & _ & Hd)].
    + congruence.
    + exists c, []. by rewrite Hl.
    + by exists d', t'.
Qed.

Lemma leading_digits_lower (s : Py.str) :
  leading_digits (Py.lower s) = leading_digits s.
Proof.
  destruct s as [|c1 s]; [done|]. rewrite lower_cons.
  destruct (lower_chars_head c1)
    as [[Hc1 Hl1]|(_ & Hd1 & d & d' & t & t' & Hl1 & _ & _ & Hd & _)].
  2:{ rewrite Hl1. cbn [app leading_digits].
      transitivity (@None Z).
      - destruct (t ++ Py.lower s); by rewrite Hd.
      - destruct s; by rewrite Hd1. }
  rewrite Hl1. cbn [app]. destruct s as [|c2 s]; [done|]. rewrite lower_cons.
  destruct (lower_chars_head c2)
    as [[Hc2 Hl2]|(_ & Hd2 & d & d' & t & t' & Hl2 & _ & _ & Hd & _)].
  - rewrite Hl2. cbn [app]. destruct (Py.lower s); reflexivity.
  - rewrite Hl2. cbn [app leading_digits]. by rewrite Hd, Hd2.
Qed.

(** X1: the Month Resolver does not see the case of its text: a text and
    its lower-case form resolve alike, and so do two texts that differ in
    case only. *)
Theorem month_from_long_case_blind (s s' : Py.str) :
  month_from_long (CStr (Py.lower s)) = month_from_long (CStr s) ∧
  (Py.lower s = Py.lower s' →
   month_from_long (CStr s) = month_from_long (CStr s')).
Proof.
  assert (∀ t, month_from_long (CStr (Py.lower t)) = month_from_long (CStr t))
    as Hlow.
  { intros t. unfold month_from_long. cbn [str_of_cell].
    by rewrite strip_lower, leading_digits_lower, lower_idemp. }
  split; [done|]. intros Heq. by rewrite <- (Hlow s), <- (Hlow s'), Heq.
Qed.

Lemma lstrip_spaces_app (l s : Py.str) :
  Forall (λ c, Py.isspace c = true) l → Py.lstrip (l ++ s) = Py.lstrip s.
Proof.
  induction 1 as [|c l Hc _ IH]; [done|]. simpl. by rewrite Hc.
Qed.

Lemma lstrip_app (s l : Py.str) :
  Py.lstrip (s ++ l)
  = match Py.lstrip s with [] => Py.lstrip l | t => t ++ l end.
Proof.
  induction s as [|c s IH]; [done|].
  simpl. by destruct (Py.isspace c).
Qed.

Lemma rstrip_app_spaces (s l : Py.str) :
  Forall (λ c, Py.isspace c = true) l → Py.rstrip (s ++ l) = Py.rstrip s.
Proof.
  intros Hl. unfold Py.rstrip. rewrite reverse_app.
  rewrite lstrip_spaces_app; [done|]. by apply Forall_reverse.
Qed.

Lemma strip_padding (l s l' : Py.str) :
  Forall (λ c, Py.isspace c = true) l → Forall (λ c, Py.isspace c = true) l' →
  Py.strip (l ++ s ++ l') = Py.strip s.
Proof.
  intros Hl Hl'. unfold Py.strip.
  rewrite lstrip_spaces_app by done. rewrite lstrip_app.
  destruct (Py.lstrip s) as [|c t] eqn:Hs.
  - replace (Py.lstrip l') with (@nil N); [done|].
    rewrite <- (app_nil_r l'). by rewrite lstrip_spaces_app.
  - by rewrite rstrip_app_spaces.
Qed.

(** X2: blanks before and after the text of a month cell do not change
    what the Month Resolver returns. *)
Theorem month_from_long_ignores_padding (l s l' : Py.str) :
  Forall (λ c, Py.isspace c = true) l → Forall (λ c, Py.isspace c = true) l' →
  month_from_long (CStr (l ++ s ++ l')) = month_from_long (CStr s).
Proof.
  intros Hl Hl'. unfold month_from_long. cbn [str_of_cell].
  by rewrite strip_padding.
Qed.

(** ** Month Resolver: what it can return *)

Lemma mapping_values (x : Py.str) (k : Z) :
  dict_get mapping x = Some k → 1 ≤ k ≤ 12.
Proof.
  intros H.
  let m := eval vm_compute in mapping in change mapping with m in H.
  cbn [dict_get] in H.
  repeat (destruct (decide _) as [_|_] in H; [injection H as <-; lia|]).
  done.
Qed.

Lemma digit_val_range (c : N) : Py.isdigit c = true → 0 ≤ Py.digit_val c ≤ 9.
Proof.
  unfold Py.isdigit, Py.digit_val.
  destruct (Py.digit_of _ c) as [d|] eqn:Hd; [|done]. intros _.
  apply digit_of_Some in Hd as (z & _ & Hz & ->). simpl. lia.
Qed.

Lemma leading_digits_range (s : Py.str) (n : Z) :
  leading_digits s = Some n → 0 ≤ n ≤ 99.
Proof.
  destruct s as [|c1 [|c2 s]]; [done| |]; cbn [leading_digits].
  - destruct (Py.isdigit c1) eqn:H1; [|done]. intros [= <-].
    apply digit_val_range in H1. lia.
  - destruct (Py.isdigit c1) eqn:H1; [|done].
    apply digit_val_range in H1.
    destruct (Py.isdigit c2) eqn:H2; intros [= <-]; [|lia].
    apply digit_val_range in H2. lia.
Qed.

(** X3: whatever the cell, a month the Month Resolver returns lies in
    0..99, and in 1..12 when it comes from the abbreviation table (the text
    does not begin with a digit); nothing in the resolver keeps it within
    1..12 otherwise. *)
Theorem month_from_long_range (val : cell) (k : Z) :
  month_from_long val = Some k →
  0 ≤ k ≤ 99 ∧
  (leading_digits (Py.strip (str_of_cell val)) = None → 1 ≤ k ≤ 12).
Proof.
  assert (∀ s, match leading_digits s with
               | Some n => Some n
               | None => dict_get mapping (take 3 (Py.lower s))
               end = Some k →
               0 ≤ k ≤ 99 ∧ (leading_digits s = None → 1 ≤ k ≤ 12)) as Hs.
  { intros s. destruct (leading_digits s) as [n|] eqn:Hd.
    - intros [= ->]. apply leading_digits_range in Hd. by split.
    - intros Hk%mapping_values. split; [lia|done]. }
  destruct val as [|z|s]; [done|apply Hs..].
Qed.

Lemma strip_head (c : N) (s : Py.str) :
  Py.isspace c = false → ∃ t, Py.strip (c :: s) = c :: t.
Proof.
  intros Hc. unfold Py.strip. cbn [Py.lstrip]. rewrite Hc.
  unfold Py.rstrip. rewrite reverse_cons, lstrip_app.
  destruct (Py.lstrip (reverse s)) as [|c' t].
  - exists []. cbn [Py.lstrip]. by rewrite Hc.
  - exists (reverse (c' :: t)). by rewrite reverse_app.
Qed.

(** X4: a number cell from 0 to 99 resolves to itself, a negative number
    does not resolve. *)
Theorem month_from_long_numbers (z : Z) :
  (0 ≤ z ≤ 99 → month_from_long (CInt z) = Some z) ∧
  (z < 0 → month_from_long (CInt z) = None).
Proof.
  split.
  - intros Hz.
    assert (Forall (λ z, month_from_long (CInt z) = Some z) (seqZ 0 100)) as Hall
      by (apply (bool_decide_unpack _); by vm_compute).
    rewrite list.Forall_forall in Hall. apply Hall, elem_of_seqZ. lia.
  - intros Hz. destruct z as [|p|p]; [lia..|].
    unfold month_from_long. cbn [str_of_cell].
    change (Py.str_of_int (Z.neg p)) with (45%N :: Py.of_string (pretty p)).
    destruct (strip_head 45 (Py.of_string (pretty p))) as [t ->]; [done|].
    replace (leading_digits (45%N :: t)) with (@None Z) by (by destruct t).
    destruct (dict_get mapping _) as [k|] eqn:Hk; [|done].
    apply mapping_first_letter in Hk.
    unfold first_letters in Hk. set_unfold. by repeat destruct Hk as [?|Hk].
Qed.

(** X5: for texts that do not begin with a digit only the first three
    characters count, case aside; so every text that begins with j, u, i
    resolves to 7, "juin" as well as "juillet". *)
Theorem month_from_long_three_letters (s s' : Py.str) :
  (leading_digits (Py.strip s) = None →
   leading_digits (Py.strip s') = None →
   take 3 (Py.lower (Py.strip s)) = take 3 (Py.lower (Py.strip s')) →
   month_from_long (CStr s) = month_from_long (CStr s')) ∧
  (take 3 (Py.lower (Py.strip s)) = Py.of_string "jui" →
   month_from_long (CStr s) = Some 7).
Proof.
  split.
  - intros Hs Hs' Heq. unfold month_from_long. cbn [str_of_cell].
    by rewrite Hs, Hs', Heq.
  - intros Hj. apply month_from_long_table. by rewrite Hj.
Qed.

(** ** Normalisation: outcome and invariants *)

Lemma mapM_pointwise {A B} (g : A → res B) (l : list A) (l' : list B) :
  mapM g l = inr l' → Forall2 (λ x y, g x = inr y) l l'.
Proof.
  revert l'. induction l as [|x l IH]; intros l'; cbn [mapM].
  - intros [= <-]. constructor.
  - destruct (g x) as [?|y] eqn:Hx; [done|]. simpl.
    destruct (mapM g l) as [?|ys]; [done|]. simpl.
    intros [= <-]. constructor; [done|]. by apply IH.
Qed.

(** X7: normalisation keeps every record, in order: the frame has as many
    records as the sheet has rows, their fields are those of the rows (the
    unit count being set to 1 throughout when the sheet has no unit
    column), and the label of each record is the one line 63 computes from
    its resolved month. *)
Theorem normalise_keeps_records (df : DataFrame) (f : Frame) :
  normalise df = inr f →
  length (recs f) = length (rows df) ∧
  cols f = strip_columns (columns df) ∧
  row <$> recs f
  = (if has_column (strip_columns (columns df)) "un" then rows df
     else set_un 1 <$> rows df) ∧
  ∀ r, r ∈ recs f → mois_lbl (mois_num r) = inr (mois_lbl_full r).
Proof.
  intros (Hc & Hr & _ & Hl & _)%normalise_inv. split_and!; [|done|done|].
  - rewrite <- (length_fmap row), Hr. unfold default_un.
    destruct (has_column _ _); [done|]. by rewrite length_fmap.
  - apply mapM_pointwise in Hl. intros r Hin.
    apply list_elem_of_lookup_1 in Hin as [i Hi].
    rewrite Forall2_fmap in Hl.
    by apply (Forall2_lookup_lr _ _ _ i r r Hl).
Qed.

Lemma wrap64_small (z : Z) : - 2 ^ 63 ≤ z < 2 ^ 63 → wrap64 z = z.
Proof. intros Hz. unfold wrap64. rewrite Z.mod_small; lia. Qed.

Lemma total_ones (rs : list Rec) :
  (∀ r, r ∈ rs → un (row r) = 1) →
  total_Z (un ∘ row <$> rs) = Z.of_nat (length rs).
Proof.
  induction rs as [|r rs IH]; intros H; [done|].
  rewrite fmap_cons. cbn [total_Z foldr length].
  fold (total_Z (un ∘ row <$> rs)).
  rewrite IH by (intros r' Hr'; apply H; by right).
  unfold compose. rewrite (H r) by (by left). lia.
Qed.

Lemma df_filt_recs (f ff : Frame) (prods : list string) :
  df_filt f prods = inr ff → recs ff ⊆+ recs f.
Proof.
  unfold df_filt. destruct prods as [|p prods]; [by intros [= <-]|].
  destruct (has_column _ _); [|done]. intros [= <-]. cbn [recs].
  apply sublist_submseteq, sublist_filter.
Qed.

(** X8: on a sheet without unit column the aggregates count records: under
    any product selection, the series of a year holds for each month of
    1..12 the number of records of the filtered view of that year and
    month, and so does the cell of the heatmap where there is such a
    record.  (The sheet has fewer than 2^63 rows.) *)
Theorem sums_count_records_without_un
    (df : DataFrame) (f ff : Frame) (prods : list string) (y m : Z) :
  normalise df = inr f → df_filt f prods = inr ff →
  has_column (strip_columns (columns df)) "un" = false →
  Z.of_nat (length (rows df)) < 2 ^ 63 → 1 ≤ m ≤ 12 →
  dict_get (serie_annee ff y) m
  = Some (Z.of_nat (length (filter (of_year_month y m) (recs ff)))) ∧
  pivot_cell (pivot ff) m y
  = match filter (of_year_month y m) (recs ff) with
    | [] => None
    | rs => Some (Z.of_nat (length rs))
    end.
Proof.
  intros (_ & Hr & _)%normalise_inv Hff Hun Hlen Hm.
  apply df_filt_recs in Hff.
  assert (units (filter (of_year_month y m) (recs ff))
          = Z.of_nat (length (filter (of_year_month y m) (recs ff)))) as Hu.
  { unfold units, sum_Z. rewrite total_ones.
    - apply wrap64_small.
      pose proof (length_filter (of_year_month y m) (recs ff)).
      pose proof (submseteq_length _ _ Hff).
      assert (length (recs f) = length (rows df)) as Hl.
      { rewrite <- (length_fmap row), Hr. unfold default_un. rewrite Hun.
        by rewrite length_fmap. }
      lia.
    - intros r [_ Hin]%list_elem_of_filter.
      unfold default_un in Hr. rewrite Hun in Hr.
      assert (row r ∈ set_un 1 <$> rows df) as Hrow.
      { rewrite <- Hr. apply list_elem_of_fmap_2.
        by eapply elem_of_submseteq. }
      by apply list_elem_of_fmap in Hrow as (r0 & -> & _). }
  split.
  - rewrite serie_annee_lookup by done. unfold year_month_sum. by rewrite Hu.
  - rewrite pivot_cell_spec by done.
    destruct (filter (of_year_month y m) (recs ff)) as [|r rs] eqn:Hrs; [done|].
    by rewrite Hu.
Qed.

(** ** The run as a whole *)

Lemma py_min_spec (l : list Z) (lo : Z) :
  py_min l = inr lo → lo ∈ l ∧ ∀ y, y ∈ l → lo ≤ y.
Proof.
  destruct l as [|x l]; [done|]. intros [= <-].
  induction l as [|z l [IHin IHle]]; simpl.
  - split; [by left|]. intros y ->%list_elem_of_singleton. lia.
  - split.
    + destruct (Z.min_spec z (foldr Z.min x l)) as [[_ ->]|[_ ->]].
      * right. by left.
      * apply elem_of_cons in IHin as [->|?]; [by left|]. right. by right.
    + intros y Hy.
      assert (y = z ∨ y ∈ x :: l) as [->|Hy'].
      { rewrite !elem_of_cons in *. tauto. }
      * lia.
      * specialize (IHle y Hy'). lia.
Qed.

Lemma py_max_spec (l : list Z) (hi : Z) :
  py_max l = inr hi → hi ∈ l ∧ ∀ y, y ∈ l → y ≤ hi.
Proof.
  destruct l as [|x l]; [done|]. intros [= <-].
  induction l as [|z l [IHin IHle]]; simpl.
  - split; [by left|]. intros y ->%list_elem_of_singleton. lia.
  - split.
    + destruct (Z.max_spec z (foldr Z.max x l)) as [[_ ->]|[_ ->]].
      * apply elem_of_cons in IHin as [->|?]; [by left|]. right. by right.
      * right. by left.
    + intros y Hy.
      assert (y = z ∨ y ∈ x :: l) as [->|Hy'].
      { rewrite !elem_of_cons in *. tauto. }
      * lia.
      * specialize (IHle y Hy'). lia.
Qed.

(** X10: on a run that goes through, the page starts with the heatmap and
    ends with the annex table, and the two years in the title of the
    comparison chart are the smallest and the largest of the averaging
    years. *)
Theorem run_page_of_success (df : DataFrame) (s : Selection) (f ff : Frame) :
  normalise df = inr f → df_filt f (sel_prods s) = inr ff →
  sel_mean_years s ≠ [] →
  ∃ lo hi,
    run df s
    = (inr (), page_before_comparison ff ++ page_from_comparison f ff s lo hi) ∧
    lo ∈ sel_mean_years s ∧ hi ∈ sel_mean_years s ∧
    (∀ y, y ∈ sel_mean_years s → lo ≤ y ≤ hi) ∧
    head (run df s).2 = Some (Heatmap (pivot ff)) ∧
    list.last (run df s).2 = Some (Annexe annexe).
Proof.
  intros Hf Hff Hs. rewrite run_unfold, Hf, Hff.
  destruct (py_min (sel_mean_years s)) as [e|lo] eqn:Hlo;
    [by destruct (sel_mean_years s)|].
  destruct (py_max (sel_mean_years s)) as [e|hi] eqn:Hhi;
    [by destruct (sel_mean_years s)|].
  apply py_min_spec in Hlo as [Hlo1 Hlo2].
  apply py_max_spec in Hhi as [Hhi1 Hhi2].
  exists lo, hi. split_and!; [done..| |done|].
  - intros y Hy. split; [by apply Hlo2|by apply Hhi2].
  - cbn [snd]. unfold page_from_comparison.
    by rewrite !app_assoc, last_snoc.
Qed.

(** ** The axis of the comparison chart *)

Lemma unique_spec {A} `{EqDecision A} (l : list A) :
  NoDup (unique l) ∧ (∀ x, x ∈ unique l ↔ x ∈ l) ∧ head (unique l) = head l.
Proof.
  induction l as [|a l (IHnd & IHin & _)]; [split_and!; [constructor|done..]|].
  cbn [unique]. split_and!; [|intros x|done].
  - constructor; [|by apply list.NoDup_filter].
    by intros [? _]%list_elem_of_filter.
  - rewrite !elem_of_cons, list_elem_of_filter, IHin.
    destruct (decide (x = a)); naive_solver.
Qed.

(** X11: the x axis of the comparison chart of a run lists the distinct
    month labels of the whole sheet, each once, starting with the label of
    the first record; it is read from the unfiltered frame, so it is the
    same under every selection, and it has as many entries as the sheet has
    distinct labels, while each of the three series has twelve. *)
Theorem comparison_axis_labels
    (df : DataFrame) (s : Selection) (f : Frame)
    (x : list string) (bar line : list (Z * Z)) (moyenne : list (Z * Q)) :
  normalise df = inr f →
  Comparison x bar line moyenne ∈ (run df s).2 →
  x = unique (mois_lbl_full <$> recs f) ∧
  NoDup x ∧
  (∀ l, l ∈ x ↔ ∃ r, r ∈ recs f ∧ mois_lbl_full r = l) ∧
  head x = mois_lbl_full <$> head (recs f) ∧
  length bar = 12%nat ∧ length line = 12%nat ∧ length moyenne = 12%nat ∧
  ∀ s' x' bar' line' moyenne',
    Comparison x' bar' line' moyenne' ∈ (run df s').2 → x' = x.
Proof.
  intros Hf.
  assert (∀ s x bar line moyenne,
            Comparison x bar line moyenne ∈ (run df s).2 →
            x = unique (mois_lbl_full <$> recs f) ∧
            length bar = 12%nat ∧ length line = 12%nat ∧
            length moyenne = 12%nat) as Hrun.
  { clear s x bar line moyenne. intros s x bar line moyenne.
    rewrite run_unfold, Hf.
    destruct (df_filt f (sel_prods s)) as [?|ff]; [by intros ?%elem_of_nil|].
    unfold page_before_comparison, page_from_comparison.
    destruct (py_min (sel_mean_years s)), (py_max (sel_mean_years s)),
      (classe_produit ff), (dv_produit ff);
      cbn [snd option_list fmap option_fmap option_map app];
      intros Hin; set_unfold in Hin; destruct_or?; simplify_eq;
      unfold serie_bar, serie_line, serie_annee, mean, reindex;
      by rewrite !length_fmap. }
  intros Hin. destruct (Hrun _ _ _ _ _ Hin) as (-> & Hb & Hl & Hm).
  destruct (unique_spec (mois_lbl_full <$> recs f)) as (Hnd & Hiff & Hhd).
  split_and!; [done|done| | |done..|].
  - intros l. rewrite Hiff, list_elem_of_fmap. naive_solver.
  - rewrite Hhd. by destruct (recs f).
  - intros s' x' bar' line' moyenne' Hin'.
    by destruct (Hrun _ _ _ _ _ Hin') as (-> & _).
Qed.

(** ** Dimension sets *)

Lemma StronglySorted_lookup_lt {A} (R : relation A) (l : list A)
    (i j : nat) (x y : A) :
  StronglySorted R l → l !! i = Some x → l !! j = Some y → (i < j)%nat → R x y.
Proof.
  intros Hs. revert i j. induction Hs as [|a l _ IH Hall]; intros i j Hi Hj Hij.
  - done.
  - destruct j as [|j]; [lia|]. destruct i as [|i]; simpl in *.
    + injection Hi as <-. rewrite List.Forall_forall in Hall.
      apply Hall, list_elem_of_In. by eapply list_elem_of_lookup_2.
    + apply (IH i j); [done..|lia].
Qed.

Lemma YEARS_ascending (f : Frame) (i j : nat) (x y : Z) :
  YEARS f !! i = Some x → YEARS f !! j = Some y → (i < j)%nat → x < y.
Proof.
  intros Hi Hj Hij.
  assert (x ≤ y) as Hle.
  { eapply (StronglySorted_lookup_lt Z.le (YEARS f)); [|done..].
    apply (StronglySorted_merge_sort Z.le). }
  assert (x ≠ y); [|lia]. intros ->.
  assert (i = j); [|lia].
  eapply NoDup_lookup; [|done..]. apply NoDup_group_keys.
Qed.

(** X12: the years offered in the sidebar are the years of the records
    that have one, each once, in strictly ascending order. *)
Theorem YEARS_sorted_distinct (f : Frame) :
  (∀ y, y ∈ YEARS f ↔ ∃ r, r ∈ recs f ∧ Annee_saisie (row r) = Some y) ∧
  NoDup (YEARS f) ∧
  ∀ i j x y, YEARS f !! i = Some x → YEARS f !! j = Some y → (i < j)%nat → x < y.
Proof.
  split_and!.
  - apply elem_of_YEARS.
  - apply NoDup_group_keys.
  - apply YEARS_ascending.
Qed.

(** X13: when the sheet has a year, the bar year defaults to the latest
    year and the line year to the year before it among those present (to
    the same year when there is only one). *)
Theorem default_years (f : Frame) :
  YEARS f ≠ [] →
  ∃ bar line,
    default_year_bar (YEARS f) = Some bar ∧
    default_year_line (YEARS f) = Some line ∧
    bar ∈ YEARS f ∧ line ∈ YEARS f ∧
    (∀ y, y ∈ YEARS f → y ≤ bar) ∧
    (length (YEARS f) = 1%nat → line = bar) ∧
    ((1 < length (YEARS f))%nat →
     line < bar ∧ ∀ y, y ∈ YEARS f → y < bar → y ≤ line).
Proof.
  intros Hne. set (n := length (YEARS f)).
  assert (0 < n)%nat as Hn by (subst n; destruct (YEARS f); [done|simpl; lia]).
  destruct (lookup_lt_is_Some_2 (YEARS f) (n - 1)) as [bar Hbar]; [lia|].
  assert (default_year_bar (YEARS f) = Some bar) as Hdb.
  { unfold default_year_bar, selectbox_default. fold n.
    rewrite (proj2 (Z.leb_le _ _)) by lia.
    by replace (Z.to_nat (Z.of_nat n - 1)) with (n - 1)%nat by lia. }
  assert (∀ y, y ∈ YEARS f → y ≤ bar) as Hmax.
  { intros y [j Hj]%list_elem_of_lookup_1.
    pose proof (lookup_lt_Some _ _ _ Hj) as Hlt. fold n in Hlt.
    destruct (decide (j = n - 1)%nat) as [->|Hjn].
    - rewrite Hbar in Hj. injection Hj as ->. lia.
    - pose proof (YEARS_ascending f j (n - 1) y bar Hj Hbar). lia. }
  destruct (decide (n = 1)%nat) as [H1|H1].
  - exists bar, bar. split_and!; [done| |by eapply list_elem_of_lookup_2..
                                   |done|done|lia].
    unfold default_year_line, selectbox_default. fold n. rewrite H1. simpl.
    rewrite H1 in Hbar. done.
  - destruct (lookup_lt_is_Some_2 (YEARS f) (n - 2)) as [line Hline]; [lia|].
    exists bar, line. split_and!; [done| |by eapply list_elem_of_lookup_2..
                                    |done|lia|].
    + unfold default_year_line, selectbox_default. fold n.
      rewrite (proj2 (Z.ltb_lt 1 (Z.of_nat n))) by lia.
      rewrite (proj2 (Z.leb_le _ _)) by lia.
      by replace (Z.to_nat (Z.of_nat n - 2)) with (n - 2)%nat by lia.
    + intros _. split.
      * apply (YEARS_ascending f (n - 2) (n - 1)); [done..|lia].
      * intros y [j Hj]%list_elem_of_lookup_1 Hy.
        pose proof (lookup_lt_Some _ _ _ Hj) as Hlt. fold n in Hlt.
        destruct (decide (j = n - 1)%nat) as [->|Hjn].
        { rewrite Hbar in Hj. injection Hj as ->. lia. }
        destruct (decide (j = n - 2)%nat) as [->|Hjn2].
        { rewrite Hline in Hj. injection Hj as ->. lia. }
        pose proof (YEARS_ascending f j (n - 2) y line Hj Hline). lia.
Qed.

(** X14: the products offered in the sidebar are the products of the
    records that have one, each once, in ascending order; there is none
    when the sheet has no product column. *)
Theorem PRODS_sorted_distinct (f : Frame) :
  (has_column (cols f) "PRODUIT" = false → PRODS f = []) ∧
  (∀ p, p ∈ PRODS f ↔
        has_column (cols f) "PRODUIT" = true
        ∧ ∃ r, r ∈ recs f ∧ PRODUIT (row r) = Some p) ∧
  NoDup (PRODS f) ∧ Sorted str_le (PRODS f).
Proof.
  unfold PRODS. fold (group_keys str_le (PRODUIT ∘ row) (recs f)).
  destruct (has_column (cols f) "PRODUIT"); split_and!; try done.
  - intros p. rewrite (elem_of_group_keys str_le (PRODUIT ∘ row)). naive_solver.
  - apply (NoDup_group_keys str_le (PRODUIT ∘ row)).
  - apply (Sorted_merge_sort str_le).
  - intros p. split; [by intros ?%elem_of_nil|by intros [? _]].
  - constructor.
Qed.

(** X15: with every product selected (the default of the product widget,
    when there is a product) the filter is not the identity: it keeps the
    records that have a product and drops those whose product cell is
    empty, unless some product is itself named "nan". *)
Theorem df_filt_all_products (f : Frame) :
  PRODS f ≠ [] →
  ∃ ff, df_filt f (PRODS f) = inr ff ∧
        ∀ r, r ∈ recs ff ↔
             r ∈ recs f ∧
             (is_Some (PRODUIT (row r)) ∨ "nan"%string ∈ PRODS f).
Proof.
  intros Hne.
  assert (has_column (cols f) "PRODUIT" = true) as Hc.
  { unfold PRODS in Hne. by destruct (has_column _ _). }
  unfold df_filt. destruct (PRODS f) as [|p ps] eqn:Hp; [done|].
  rewrite Hc. eexists. split; [done|]. intros r. cbn [recs].
  rewrite list_elem_of_filter, <- Hp.
  split.
  - intros [H1 H2]. split; [done|].
    destruct (PRODUIT (row r)) as [q|]; [left; by eexists|by right].
  - intros [H1 H2]. split; [|done].
    destruct (PRODUIT (row r)) as [q|] eqn:Hq; simpl.
    + unfold PRODS. rewrite Hc.
      fold (group_keys str_le (PRODUIT ∘ row) (recs f)).
      apply (elem_of_group_keys str_le (PRODUIT ∘ row)). by exists r.
    + by destruct H2 as [[? ?]|?].
Qed.

(** X16: a non-empty product selection keeps exactly the records whose
    product, read as text, is selected: never more records than before,
    the same columns, and filtering a second time changes nothing; on a
    sheet without product column it stops on [KeyError]. *)
Theorem df_filt_nonempty_selection (f : Frame) (prods : list string) :
  prods ≠ [] →
  (has_column (cols f) "PRODUIT" = false →
   df_filt f prods = inl (KeyError "PRODUIT")) ∧
  (has_column (cols f) "PRODUIT" = true →
   ∃ ff, df_filt f prods = inr ff ∧
         cols ff = cols f ∧
         (∀ r, r ∈ recs ff ↔ r ∈ recs f ∧ astype_str (PRODUIT (row r)) ∈ prods) ∧
         (length (recs ff) ≤ length (recs f))%nat ∧
         df_filt ff prods = inr ff).
Proof.
  intros Hne. unfold df_filt. destruct prods as [|p ps]; [done|].
  split; intros Hc; rewrite Hc; [done|].
  eexists. split; [done|]. cbn [cols recs]. rewrite Hc.
  split_and!; [done| |apply length_filter|].
  - intros r. rewrite list_elem_of_filter. tauto.
  - f_equal. f_equal. rewrite list_filter_filter.
    apply list_filter_iff. tauto.
Qed.

(** ** Totals of the aggregations *)

Lemma total_fmap_add {A} (a b : A → Z) (l : list A) :
  total_Z ((λ x, a x + b x) <$> l) = total_Z (a <$> l) + total_Z (b <$> l).
Proof.
  induction l as [|x l IH]; [done|].
  rewrite !fmap_cons. unfold total_Z in *. cbn [foldr]. lia.
Qed.

(** Adding up int64 values that are themselves wrapped sums gives the
    wrapped total. *)
Lemma wrap64_add_l (a b : Z) : wrap64 (wrap64 a + b) = wrap64 (a + b).
Proof.
  unfold wrap64. f_equal.
  replace ((a + 2 ^ 63) mod 2 ^ 64 - 2 ^ 63 + b + 2 ^ 63)
    with ((a + 2 ^ 63) mod 2 ^ 64 + b) by lia.
  rewrite Zplus_mod_idemp_l. f_equal. lia.
Qed.

Lemma wrap64_add_r (a b : Z) : wrap64 (a + wrap64 b) = wrap64 (a + b).
Proof. by rewrite (Z.add_comm a), wrap64_add_l, (Z.add_comm b). Qed.

Lemma sum_Z_wrapped {A} (g : A → Z) (l : list A) :
  sum_Z ((λ x, wrap64 (g x)) <$> l) = sum_Z (g <$> l).
Proof.
  unfold sum_Z. induction l as [|x l IH]; [done|].
  rewrite !fmap_cons. unfold total_Z in *. cbn [foldr].
  rewrite wrap64_add_l, <- wrap64_add_r, IH, wrap64_add_r. done.
Qed.

Lemma sum_indicator {K} `{EqDecision K} {A} (key : A → option K)
    (ks : list K) (x : A) (v : Z) :
  NoDup ks →
  total_Z ((λ k, if decide (key x = Some k) then v else 0) <$> ks)
  = if decide (keyed_in key ks x) then v else 0.
Proof.
  induction 1 as [|k ks Hk _ IH].
  - simpl. rewrite decide_False; [done|]. unfold keyed_in.
    destruct (key x); [apply not_elem_of_nil|tauto].
  - rewrite fmap_cons. unfold total_Z in *. cbn [foldr]. rewrite IH.
    destruct (decide (key x = Some k)) as [Hx|Hx].
    + rewrite (decide_True (P := keyed_in key (k :: ks) x))
        by (unfold keyed_in; rewrite Hx; by left).
      rewrite (decide_False (P := keyed_in key ks x))
        by (unfold keyed_in; by rewrite Hx).
      lia.
    + destruct (decide (keyed_in key ks x)) as [Hin|Hout].
      * rewrite decide_True; [lia|]. unfold keyed_in in *.
        destruct (key x); [by right|done].
      * rewrite decide_False; [lia|]. unfold keyed_in in *.
        destruct (key x) as [k'|]; [|done].
        intros [->|?]%elem_of_cons; done.
Qed.

(** The sums of the groups of distinct keys add up to the sum over the
    records that fall in one of these groups. *)
Lemma sum_groups {K} `{EqDecision K} {A} (key : A → option K) (w : A → Z)
    (ks : list K) (l : list A) :
  NoDup ks →
  total_Z ((λ k, total_Z (w <$> filter (λ x, key x = Some k) l)) <$> ks)
  = total_Z (w <$> filter (keyed_in key ks) l).
Proof.
  intros Hks. induction l as [|x l IH].
  - simpl. clear Hks. induction ks as [|k ks IHk]; [done|].
    rewrite fmap_cons. unfold total_Z in *. cbn [foldr]. by rewrite IHk.
  - rewrite (list_fmap_ext _
      (λ k, (if decide (key x = Some k) then w x else 0)
            + total_Z (w <$> filter (λ x, key x = Some k) l)) ks).
    2:{ intros _ k _. rewrite filter_cons.
        destruct (decide (key x = Some k)); [|lia]. by rewrite fmap_cons. }
    rewrite (total_fmap_add (λ k, if decide (key x = Some k) then w x else 0)),
      IH, sum_indicator by done.
    rewrite filter_cons.
    destruct (decide (keyed_in key ks x)) as [Hin|Hout]; [|lia].
    rewrite fmap_cons. unfold total_Z. by cbn [foldr].
Qed.

Lemma keyed_in_range (r : Rec) : keyed_in mois_num range_1_13 r ↔ usable_month r.
Proof.
  unfold keyed_in, usable_month. destruct (mois_num r); [|done].
  apply elem_of_range_1_13.
Qed.

Lemma serie_annee_values (f : Frame) (y : Z) :
  (serie_annee f y).*2 = (λ m, year_month_sum f y m) <$> range_1_13.
Proof.
  unfold serie_annee, reindex. rewrite <- list_fmap_compose.
  apply list_fmap_ext. intros _ m _. simpl.
  rewrite groupby_sum_default. unfold year_month_sum. f_equal.
  rewrite list_filter_filter. apply list_filter_iff.
  intros r. unfold of_year_month. tauto.
Qed.

(** X17: the twelve values of the bar series add up, in int64, to the unit
    counts of the records of the bar year whose month is resolved within
    1..12, each taken once; likewise for the line series. *)
Theorem serie_totals (ff : Frame) (s : Selection) :
  sum_Z (serie_bar ff s).*2
  = units (filter (λ r, Annee_saisie (row r) = Some (sel_year_bar s)
                        ∧ usable_month r) (recs ff)) ∧
  sum_Z (serie_line ff s).*2
  = units (filter (λ r, Annee_saisie (row r) = Some (sel_year_line s)
                        ∧ usable_month r) (recs ff)).
Proof.
  assert (∀ y, sum_Z (serie_annee ff y).*2
               = units (filter (λ r, Annee_saisie (row r) = Some y
                                     ∧ usable_month r) (recs ff))) as H.
  { intros y. rewrite serie_annee_values. unfold year_month_sum, units.
    unfold sum_Z at 2.
    rewrite (sum_Z_wrapped
      (λ m, total_Z (un ∘ row <$> filter (of_year_month y m) (recs ff)))).
    rewrite (list_fmap_ext _
      (λ m, total_Z (un ∘ row <$>
              filter (λ r, mois_num r = Some m)
                (filter (λ r, Annee_saisie (row r) = Some y) (recs ff))))
      range_1_13).
    2:{ intros _ m _. do 2 f_equal. rewrite list_filter_filter.
        apply list_filter_iff. intros r. unfold of_year_month. tauto. }
    unfold sum_Z. rewrite (sum_groups mois_num) by apply NoDup_seqZ.
    do 3 f_equal. rewrite list_filter_filter. apply list_filter_iff.
    intros r. rewrite keyed_in_range. tauto. }
  split; apply H.
Qed.

(** ** The average over a single year *)

(** X20: with a single averaging year the average series is that year's
    series: for each month of 1..12 its value equals the year's sum for
    that month, a sum between 0 and 2^53 being a float64. *)
Theorem mean_of_single_year (f : Frame) (y m : Z) :
  1 ≤ m ≤ 12 → 0 ≤ year_month_sum f y m ≤ 2 ^ 53 →
  ∃ v, dict_get (mean f [y]) m = Some v ∧
       (v == inject_Z (year_month_sum f y m))%Q ∧
       dict_get (serie_annee f y) m = Some (year_month_sum f y m).
Proof.
  intros Hm Hv. destruct (mean_lookup f [y] m Hm) as (ys & Hnd & Hys & ->).
  eexists. split; [done|]. split; [|by apply serie_annee_lookup].
  destruct ys as [|y1 ys].
  - rewrite year_month_sum_none; [done|]. intros r Hr Hym.
    assert (y ∈ @nil Z) as Hin; [|by apply elem_of_nil in Hin].
    apply Hys. split; [by left|by exists r].
  - assert (y1 = y) as ->.
    { destruct (proj1 (Hys y1)) as [Hy _]; [by left|].
      by apply list_elem_of_singleton in Hy. }
    destruct ys as [|y2 ys].
    + change ((λ y0, year_month_sum f y0 m) <$> [y])
        with [year_month_sum f y m].
      apply f64_mean_whole; [done|repeat constructor; lia|..];
        cbn [total_Z foldr length]; lia.
    + exfalso. assert (y2 = y) as ->.
      { destruct (proj1 (Hys y2)) as [Hy _]; [right; by left|].
        by apply list_elem_of_singleton in Hy. }
      apply StronglySorted_cons in Hnd as [Hlt _].
      inversion Hlt; lia.
Qed.

(** ** Labels of line 63 *)

(** X22: the label of a resolved month from 1 to 12 is its two-digit
    number, " - " and the name of the month; a month from -11 to 0 does not
    fail either: the list of names is then read from its end, so that the
    month gets the name of the month twelve later (0 is labelled as
    December). *)
Theorem mois_lbl_names (i : Z) :
  -11 ≤ i ≤ 12 →
  ∃ name,
    LABELS_MOIS_ASCII !! Z.to_nat (if 1 <=? i then i - 1 else i + 11) = Some name ∧
    mois_lbl (Some i) = inr (Py.format_02d i +:+ " - " +:+ name).
Proof.
  intros Hi.
  assert (Forall (λ i,
            ∃ name,
              LABELS_MOIS_ASCII !! Z.to_nat (if 1 <=? i then i - 1 else i + 11)
              = Some name ∧
              mois_lbl (Some i) = inr (Py.format_02d i +:+ " - " +:+ name))
            (seqZ (-11) 24)) as Hall.
  { vm_compute. repeat (constructor; [eexists; split; reflexivity|]).
    constructor. }
  rewrite list.Forall_forall in Hall. apply Hall, elem_of_seqZ. lia.
Qed.

End properties.

(** * The statements on sample sheets *)

(** C1 as stated fails, whatever pandas computes within the two laws of
    the interface.  On a sheet with 4 units in January 2005 and 1 unit in
    February 2006, both of product A, the widgets select by default every
    product and the averaging years 2005 and 2006; the average series then
    holds 1 for February, the mean of the one sum of 2006, not the mean 1/2
    of the sums 0 and 1 of the two selected years. *)
Lemma mean_not_over_all_selected_years :
  ¬ (∃ P : Pandas,
       ∀ (df : DataFrame) (f ff : Frame) (years : list Z) (m : Z),
         normalise df = inr f → df_filt f (PRODS f) = inr ff →
         years = default_mean_years (YEARS f) → years ≠ [] → 1 ≤ m ≤ 12 →
         ∃ v, dict_get (mean ff years) m = Some v ∧
              (v == mean_over_selected_years ff years m)%Q).
Proof.
  intros [P H].
  destruct (H two_year_sheet (frame_of two_year_sheet)
              (frame_of two_year_sheet) [2005; 2006] 2)
    as (v & Hv & Heq); [by vm_compute|by vm_compute|by vm_compute|done|lia|].
  assert (dict_get (mean (frame_of two_year_sheet) [2005; 2006]) 2
          = Some (f64_mean [1])) as Hcode by (by vm_compute).
  rewrite Hcode in Hv. injection Hv as <-.
  assert (Qeq (inject_Z 1)
            (mean_over_selected_years (frame_of two_year_sheet) [2005; 2006] 2))
    as Habs.
  { rewrite <- Heq. symmetry.
    apply f64_mean_whole; [done|repeat constructor; lia|by vm_compute..]. }
  vm_compute in Habs. discriminate.
Qed.

#[local] Existing Instance sample_pandas.

(** C7 as stated fails: a sheet whose only record of 2020 has an empty
    month cell has the year 2020 in its data and no column 2020 in its
    heatmap. *)
Lemma heatmap_columns_miss_unresolved_month_years :
  ¬ (∀ (f : Frame) (y : Z),
       y ∈ pivot_columns (pivot f) ↔
       ∃ r, r ∈ recs f ∧ Annee_saisie (row r) = Some y).
Proof.
  intros H.
  pose (f := frame_of (sheet [mkrow CNull 2020 "A" 1])).
  assert (2020 ∈ pivot_columns (pivot f)) as Hin.
  { apply H. eexists. split; [by left|done]. }
  vm_compute in Hin. by apply elem_of_nil in Hin.
Qed.

Lemma mean_over_observed_years_witness :
  1 ≤ 1 ≤ 12 ∧
  ∃ ys : list Z,
    StronglySorted Z.lt ys ∧
    (∀ y, y ∈ ys ↔
          y ∈ [2019; 2020; 2021] ∧ ∃ r, r ∈ recs sample_frame ∧ of_year_month y 1 r) ∧
    dict_get (mean sample_frame [2019; 2020; 2021]) 1
    = Some (match ys with
            | [] => 0%Q
            | _ => f64_mean ((λ y, year_month_sum sample_frame y 1) <$> ys)
            end).
Proof.
  assert (1 ≤ 1 ≤ 12) as H by lia. split; [done|].
  apply (proj1 (mean_over_observed_years sample_frame [2019; 2020; 2021] 1 H)).
Defined.

Lemma month_from_long_abbreviations_witness :
  (LABELS_MOIS_FR !! 1%nat = Some [70; 233; 118]%N
   ∨ (Py.of_string <$> LABELS_MOIS_ASCII) !! 1%nat = Some [70; 233; 118]%N) ∧
  [70; 233; 118]%N ≠ Py.of_string "Juin" ∧
  Py.lower (Py.strip [32; 70; 201; 86; 32]%N) = Py.lower [70; 233; 118]%N ∧
  month_from_long (CStr [32; 70; 201; 86; 32]%N) = Some 2.
Proof.
  assert (LABELS_MOIS_FR !! 1%nat = Some [70; 233; 118]%N
          ∨ (Py.of_string <$> LABELS_MOIS_ASCII) !! 1%nat = Some [70; 233; 118]%N)
    as H1 by (left; reflexivity).
  assert ([70; 233; 118]%N ≠ Py.of_string "Juin") as H2 by discriminate.
  assert (Py.lower (Py.strip [32; 70; 201; 86; 32]%N) = Py.lower [70; 233; 118]%N)
    as H3 by reflexivity.
  split_and!; [done..|].
  apply (month_from_long_abbreviations 1 _ _ H1 H2 H3).
Defined.

Lemma comparison_series_twelve_months_witness :
  normalise sample_sheet = inr sample_frame ∧
  df_filt sample_frame (sel_prods sample_selection) = inr sample_filtered ∧
  sel_mean_years sample_selection ≠ [] ∧
  (serie_bar sample_filtered sample_selection).*1
  = [1; 2; 3; 4; 5; 6; 7; 8; 9; 10; 11; 12] ∧
  (mean sample_filtered (sel_mean_years sample_selection)).*1
  = [1; 2; 3; 4; 5; 6; 7; 8; 9; 10; 11; 12].
Proof.
  assert (normalise sample_sheet = inr sample_frame) as H1 by reflexivity.
  assert (df_filt sample_frame (sel_prods sample_selection) = inr sample_filtered)
    as H2 by reflexivity.
  assert (sel_mean_years sample_selection ≠ []) as H3 by discriminate.
  split_and!; [done..| |];
    apply (comparison_series_twelve_months sample_sheet sample_selection
             sample_frame sample_filtered H1 H2 H3).
Defined.

Lemma optional_components_gated_witness :
  has_column (cols sample_frame) "CLASSE_CLIENT" = false ∧
  has_column (cols sample_frame) "DV" = false ∧
  classe_produit sample_frame = None ∧
  component2 sample_frame [] = (inr (), []) ∧
  dv_produit sample_frame = None ∧
  component4 sample_frame [] = (inr (), []).
Proof.
  assert (has_column (cols sample_frame) "CLASSE_CLIENT" = false) as H1
    by reflexivity.
  assert (has_column (cols sample_frame) "DV" = false) as H2 by reflexivity.
  destruct (optional_components_gated sample_frame []) as (Hc & Hd & _).
  destruct (Hc H1) as [? ?], (Hd H2) as [? ?]. by split_and!.
Defined.

Lemma empty_mean_years_abort_witness :
  normalise sample_sheet = inr sample_frame ∧
  default_mean_years (YEARS sample_frame) = [] ∧
  run sample_sheet
    {| sel_prods := []; sel_year_bar := 2021; sel_year_line := 2020;
       sel_mean_years := default_mean_years (YEARS sample_frame) |}
  = (inl ValueError, page_before_comparison sample_frame).
Proof.
  assert (normalise sample_sheet = inr sample_frame) as H1 by reflexivity.
  assert (default_mean_years (YEARS sample_frame) = []) as H2 by reflexivity.
  split_and!; [done..|].
  apply (proj2 empty_mean_years_abort sample_sheet
           {| sel_prods := []; sel_year_bar := 2021; sel_year_line := 2020;
              sel_mean_years := default_mean_years (YEARS sample_frame) |}
           sample_frame sample_frame H1 eq_refl H2).
Defined.

Lemma numeric_month_column_bypasses_resolver_witness :
  normalise numeric_sheet = inr (frame_of numeric_sheet) ∧
  has_column (strip_columns (columns numeric_sheet)) "Mois saisie" = true ∧
  mois_num <$> recs (frame_of numeric_sheet)
  = month_of ∘ to_numeric ∘ Mois_saisie <$> rows numeric_sheet ∧
  mois_num <$> recs (frame_of numeric_sheet) = [None; Some 3].
Proof.
  assert (normalise numeric_sheet = inr (frame_of numeric_sheet)) as H1
    by reflexivity.
  assert (has_column (strip_columns (columns numeric_sheet)) "Mois saisie" = true)
    as H2 by reflexivity.
  destruct (numeric_month_column_bypasses_resolver numeric_sheet
              (frame_of numeric_sheet) H1) as [Hnum _].
  destruct (Hnum H2) as [Hcol Hrows].
  split_and!; [done..|]. by rewrite Hcol.
Defined.

Lemma heatmap_columns_and_rows_witness :
  pivot_columns (pivot sample_frame) = [2019; 2020] ∧
  (2021 ∈ pivot_columns (pivot sample_frame) ↔
   ∃ r, r ∈ recs sample_frame ∧ Annee_saisie (row r) = Some 2021
        ∧ is_Some (mois_num r)).
Proof.
  split; [reflexivity|].
  apply (proj1 (heatmap_columns_and_rows sample_frame) 2021).
Defined.

Lemma month_from_long_case_blind_witness :
  Py.lower (Py.of_string "MARS") = Py.lower (Py.of_string "mars") ∧
  month_from_long (CStr (Py.of_string "MARS"))
  = month_from_long (CStr (Py.of_string "mars")).
Proof.
  assert (Py.lower (Py.of_string "MARS") = Py.lower (Py.of_string "mars")) as H
    by reflexivity.
  split; [done|].
  apply (proj2 (month_from_long_case_blind (Py.of_string "MARS")
                  (Py.of_string "mars")) H).
Defined.

Lemma month_from_long_ignores_padding_witness :
  Forall (λ c, Py.isspace c = true) [32; 9]%N ∧
  Forall (λ c, Py.isspace c = true) [160]%N ∧
  month_from_long (CStr ([32; 9]%N ++ Py.of_string "Avr" ++ [160]%N))
  = month_from_long (CStr (Py.of_string "Avr")).
Proof.
  assert (Forall (λ c, Py.isspace c = true) [32; 9]%N) as H1
    by (repeat constructor).
  assert (Forall (λ c, Py.isspace c = true) [160]%N) as H2
    by (repeat constructor).
  split_and!; [done..|].
  apply (month_from_long_ignores_padding _ (Py.of_string "Avr") _ H1 H2).
Defined.

Lemma month_from_long_range_witness :
  month_from_long (CStr (Py.of_string "45 jours")) = Some 45 ∧ 0 ≤ 45 ≤ 99.
Proof.
  assert (month_from_long (CStr (Py.of_string "45 jours")) = Some 45) as H
    by reflexivity.
  split; [done|]. apply (proj1 (month_from_long_range _ _ H)).
Defined.

Lemma month_from_long_numbers_witness :
  0 ≤ 7 ≤ 99 ∧ month_from_long (CInt 7) = Some 7 ∧
  -3 < 0 ∧ month_from_long (CInt (-3)) = None.
Proof.
  assert (0 ≤ 7 ≤ 99) as H1 by lia. assert (-3 < 0) as H2 by lia.
  split; [done|]. split; [|split; [done|]].
  - apply (proj1 (month_from_long_numbers 7) H1).
  - apply (proj2 (month_from_long_numbers (-3)) H2).
Defined.

Lemma month_from_long_three_letters_witness :
  take 3 (Py.lower (Py.strip (Py.of_string " Juin"))) = Py.of_string "jui" ∧
  month_from_long (CStr (Py.of_string " Juin")) = Some 7.
Proof.
  assert (take 3 (Py.lower (Py.strip (Py.of_string " Juin"))) = Py.of_string "jui")
    as H by reflexivity.
  split; [done|].
  apply (proj2 (month_from_long_three_letters (Py.of_string " Juin") []) H).
Defined.

Lemma normalise_keeps_records_witness :
  normalise full_sheet = inr full_frame ∧
  length (recs full_frame) = length (rows full_sheet) ∧
  row <$> recs full_frame = set_un 1 <$> rows full_sheet.
Proof.
  assert (normalise full_sheet = inr full_frame) as H by reflexivity.
  destruct (normalise_keeps_records full_sheet full_frame H) as (Hl & _ & Hr & _).
  by split_and!.
Defined.

Lemma sums_count_records_without_un_witness :
  normalise full_sheet = inr full_frame ∧
  df_filt full_frame [] = inr full_frame ∧
  has_column (strip_columns (columns full_sheet)) "un" = false ∧
  Z.of_nat (length (rows full_sheet)) < 2 ^ 63 ∧ 1 ≤ 1 ≤ 12 ∧
  dict_get (serie_annee full_frame 2005) 1 = Some 2 ∧
  pivot_cell (pivot full_frame) 1 2005 = Some 2.
Proof.
  assert (normalise full_sheet = inr full_frame) as H1 by reflexivity.
  assert (df_filt full_frame [] = inr full_frame) as H2 by reflexivity.
  assert (has_column (strip_columns (columns full_sheet)) "un" = false) as H3
    by reflexivity.
  assert (Z.of_nat (length (rows full_sheet)) < 2 ^ 63) as H4 by reflexivity.
  assert (1 ≤ 1 ≤ 12) as H5 by lia.
  split_and!; [done..| |];
    apply (sums_count_records_without_un full_sheet full_frame full_frame []
             2005 1 H1 H2 H3 H4 H5).
Defined.

Lemma run_page_of_success_witness :
  normalise sample_sheet = inr sample_frame ∧
  df_filt sample_frame (sel_prods sample_selection) = inr sample_filtered ∧
  sel_mean_years sample_selection ≠ [] ∧
  list.last (run sample_sheet sample_selection).2 = Some (Annexe annexe).
Proof.
  assert (normalise sample_sheet = inr sample_frame) as H1 by reflexivity.
  assert (df_filt sample_frame (sel_prods sample_selection) = inr sample_filtered)
    as H2 by reflexivity.
  assert (sel_mean_years sample_selection ≠ []) as H3 by discriminate.
  split_and!; [done..|].
  destruct (run_page_of_success sample_sheet sample_selection sample_frame
              sample_filtered H1 H2 H3) as (lo & hi & _ & _ & _ & _ & _ & Hlast).
  exact Hlast.
Defined.

Lemma comparison_axis_labels_witness :
  normalise sample_sheet = inr sample_frame ∧
  Comparison ["01 - Jan"; "02 - Fev"; ""]%string
    (serie_bar sample_filtered sample_selection)
    (serie_line sample_filtered sample_selection)
    (mean sample_filtered (sel_mean_years sample_selection))
  ∈ (run sample_sheet sample_selection).2 ∧
  NoDup ["01 - Jan"; "02 - Fev"; ""]%string ∧
  length (serie_bar sample_filtered sample_selection) = 12%nat.
Proof.
  assert (normalise sample_sheet = inr sample_frame) as H1 by reflexivity.
  assert (Comparison ["01 - Jan"; "02 - Fev"; ""]%string
            (serie_bar sample_filtered sample_selection)
            (serie_line sample_filtered sample_selection)
            (mean sample_filtered (sel_mean_years sample_selection))
          ∈ (run sample_sheet sample_selection).2) as H2
    by (apply (list_elem_of_lookup_2 _ 2); reflexivity).
  split_and!; [done..| |];
    apply (comparison_axis_labels sample_sheet sample_selection sample_frame
             _ _ _ _ H1 H2).
Defined.

Lemma YEARS_sorted_distinct_witness :
  YEARS sample_frame !! 0%nat = Some 2019 ∧
  YEARS sample_frame !! 2%nat = Some 2021 ∧ (0 < 2)%nat ∧ 2019 < 2021.
Proof.
  assert (YEARS sample_frame !! 0%nat = Some 2019) as H1 by reflexivity.
  assert (YEARS sample_frame !! 2%nat = Some 2021) as H2 by reflexivity.
  assert (0 < 2)%nat as H3 by lia.
  split_and!; [done..|].
  destruct (YEARS_sorted_distinct sample_frame) as (_ & _ & Hasc).
  apply (Hasc 0%nat 2%nat 2019 2021 H1 H2 H3).
Defined.

Lemma default_years_witness :
  YEARS sample_frame ≠ [] ∧
  ∃ bar line,
    default_year_bar (YEARS sample_frame) = Some bar ∧
    default_year_line (YEARS sample_frame) = Some line ∧
    bar ∈ YEARS sample_frame ∧ line ∈ YEARS sample_frame ∧
    (∀ y, y ∈ YEARS sample_frame → y ≤ bar) ∧
    (length (YEARS sample_frame) = 1%nat → line = bar) ∧
    ((1 < length (YEARS sample_frame))%nat →
     line < bar ∧ ∀ y, y ∈ YEARS sample_frame → y < bar → y ≤ line).
Proof.
  assert (YEARS sample_frame ≠ []) as H by discriminate.
  split; [done|]. apply (default_years sample_frame H).
Defined.

Lemma PRODS_sorted_distinct_witness :
  has_column (cols full_frame) "PRODUIT" = true ∧
  (∃ r, r ∈ recs full_frame ∧ PRODUIT (row r) = Some "B"%string) ∧
  "B"%string ∈ PRODS full_frame.
Proof.
  assert (has_column (cols full_frame) "PRODUIT" = true) as H1 by reflexivity.
  assert (∃ r, r ∈ recs full_frame ∧ PRODUIT (row r) = Some "B"%string) as H2.
  { eexists. split; [right; left|]; reflexivity. }
  split_and!; [done..|].
  destruct (PRODS_sorted_distinct full_frame) as (_ & Hin & _).
  apply Hin. by split.
Defined.

Lemma df_filt_all_products_witness :
  PRODS full_frame ≠ [] ∧
  ∃ ff, df_filt full_frame (PRODS full_frame) = inr ff ∧
        ∀ r, r ∈ recs ff ↔
             r ∈ recs full_frame ∧
             (is_Some (PRODUIT (row r)) ∨ "nan"%string ∈ PRODS full_frame).
Proof.
  assert (PRODS full_frame ≠ []) as H by discriminate.
  split; [done|]. apply (df_filt_all_products full_frame H).
Defined.

Lemma df_filt_nonempty_selection_witness :
  ["B"%string] ≠ [] ∧ has_column (cols full_frame) "PRODUIT" = true ∧
  ∃ ff, df_filt full_frame ["B"%string] = inr ff ∧
        (length (recs ff) ≤ length (recs full_frame))%nat ∧
        df_filt ff ["B"%string] = inr ff.
Proof.
  assert (["B"%string] ≠ []) as H1 by discriminate.
  assert (has_column (cols full_frame) "PRODUIT" = true) as H2 by reflexivity.
  split_and!; [done..|].
  destruct (proj2 (df_filt_nonempty_selection full_frame ["B"%string] H1) H2)
    as (ff & Hff & _ & _ & Hlen & Hidem).
  by exists ff.
Defined.

Lemma mean_of_single_year_witness :
  1 ≤ 1 ≤ 12 ∧ 0 ≤ year_month_sum full_frame 2005 1 ≤ 2 ^ 53 ∧
  ∃ v, dict_get (mean full_frame [2005]) 1 = Some v ∧
       (v == inject_Z (year_month_sum full_frame 2005 1))%Q ∧
       dict_get (serie_annee full_frame 2005) 1
       = Some (year_month_sum full_frame 2005 1).
Proof.
  assert (1 ≤ 1 ≤ 12) as H by lia.
  assert (0 ≤ year_month_sum full_frame 2005 1 ≤ 2 ^ 53) as H'
    by (split; by vm_compute).
  split_and!; [lia|lia|apply H'|apply H'|].
  apply (mean_of_single_year full_frame 2005 1 H H').
Defined.

Lemma mois_lbl_names_witness :
  -11 ≤ 0 ≤ 12 ∧ mois_lbl (Some 0) = inr "00 - Dec"%string.
Proof.
  assert (-11 ≤ 0 ≤ 12) as H by lia. split; [done|].
  destruct (mois_lbl_names 0 H) as (name & Hname & Hlbl).
  injection Hname as <-. exact Hlbl.
Defined.
